(** * FFX NOVA resume matcher: scoring and matching core

    A shallow embedding of the scoring engine of the repository
    ([job_matcher/utils], [job_matcher/scoring], [job_matcher/matcher.py],
    [job_matcher/models/match_result.py]) and of the orchestration of
    [resume_parser/parser.py], with the properties of the specification
    stated and proved over it.

    Conventions of the embedding.
    - A Python [str] is a Rocq [string]; its characters are the code points
      below 256 (Latin-1), on which [str.lower], [str.strip], [\s], [\w]
      are written out below.
    - A Python [float] is a rational of [Q]; equality of scores is [Qeq].
    - A Python [dict] is a [gmap], a Python [set] of strings a [gset].
    - [Optional[T]] is [option T]; an omitted keyword argument is [None]. *)

From Stdlib Require Import Ascii String NArith ZArith QArith Qminmax Qround Qabs Lia Lqa.
From stdpp Require Import base decidable option list gmap sets strings sorting pretty.

Local Open Scope string_scope.

(** ** Python string primitives on Latin-1 text *)

Module PyStr.

(** [c.lower()] for one code point below 256: A-Z, and the Latin-1
    capitals U+00C0..U+00DE apart from the multiplication sign U+00D7. *)
Definition lower_char (c : ascii) : ascii :=
  let n := N_of_ascii c in
  if ((65 <=? n) && (n <=? 90))%N
     || ((192 <=? n) && (n <=? 222) && negb (n =? 215))%N
  then ascii_of_N (n + 32) else c.

(** [c.isspace()] below 256: TAB..CR, FS..US, space, NEL, NBSP. *)
Definition isspace (c : ascii) : bool :=
  let n := N_of_ascii c in
  ((9 <=? n) && (n <=? 13))%N || ((28 <=? n) && (n <=? 32))%N
  || (n =? 133)%N || (n =? 160)%N.

(** [s.lower()] *)
Fixpoint lower (s : string) : string :=
  match s with
  | EmptyString => EmptyString
  | String c r => String (lower_char c) (lower r)
  end.

(** [s.lstrip()] *)
Fixpoint lstrip (s : string) : string :=
  match s with
  | EmptyString => EmptyString
  | String c r => if isspace c then lstrip r else s
  end.

(** [s.rstrip()] *)
Fixpoint rstrip (s : string) : string :=
  match s with
  | EmptyString => EmptyString
  | String c r =>
      match rstrip r with
      | EmptyString => if isspace c then EmptyString else String c EmptyString
      | r' => String c r'
      end
  end.

(** [s.strip()] *)
Definition strip (s : string) : string := rstrip (lstrip s).

(** Truthiness of a string: [if s:] *)
Definition truthy (s : string) : bool :=
  match s with EmptyString => false | _ => true end.

(** A string that has lost its leading blanks: it starts with no blank. *)
Definition starts_clean (s : string) : Prop :=
  match s with EmptyString => True | String c _ => isspace c = false end.

(** [s.upper()] below 256.  The small letters a-z and U+00E0..U+00FE (the
    division sign U+00F7 apart) lose 32; the sharp s U+00DF becomes the two
    letters SS.  The capitals of the micro sign U+00B5 and of U+00FF lie
    above 255: the two are left as they are, which keeps the result a
    string with a character that is not ASCII. *)
Definition upper_char (c : ascii) : string :=
  let n := N_of_ascii c in
  if ((97 <=? n) && (n <=? 122))%N
     || ((224 <=? n) && (n <=? 254) && negb (n =? 247))%N
  then String (ascii_of_N (n - 32)) EmptyString
  else if (n =? 223)%N then "SS"
  else String c EmptyString.

Fixpoint upper (s : string) : string :=
  match s with
  | EmptyString => EmptyString
  | String c r => upper_char c +:+ upper r
  end.

End PyStr.

(** ** job_matcher/utils/skill_synonyms.py *)

Module SkillSynonyms.

(** [SKILL_SYNONYMS], in the insertion order of the dict literal.  A key
    written twice in a Python dict literal keeps its first position and
    its last value; no key is repeated here.  The alternative forms of one
    entry are a Python set: every member is bound to the same canonical
    form, so their iteration order does not show in [_REVERSE_LOOKUP]. *)
Definition SKILL_SYNONYMS : list (string * list string) :=
  [ ("javascript", ["js"; "ecmascript"; "es6"; "es2015"; "es2020"; "vanilla js"]);
    ("typescript", ["ts"]);
    ("python", ["python3"; "python2"; "py"; "cpython"]);
    ("java", ["java8"; "java11"; "java17"; "jdk"; "j2ee"; "jee"]);
    ("c#", ["csharp"; "c sharp"; ".net c#"]);
    ("c++", ["cpp"; "c plus plus"; "cplusplus"]);
    ("c", ["ansi c"; "c language"]);
    ("go", ["golang"]);
    ("rust", ["rustlang"]);
    ("ruby", ["ruby on rails"; "ror"]);
    ("php", ["php7"; "php8"]);
    ("swift", ["swift ui"; "swiftui"]);
    ("kotlin", ["kotlin/jvm"]);
    ("scala", ["scala lang"]);
    ("r", ["r language"; "r programming"; "rstats"]);
    ("matlab", ["mathlab"]);
    ("perl", ["perl5"]);
    ("shell", ["bash"; "sh"; "zsh"; "shell scripting"; "bash scripting"]);
    ("powershell", ["ps"; "posh"; "windows powershell"]);
    ("sql", ["structured query language"; "sql queries"]);
    ("react", ["reactjs"; "react.js"; "react js"]);
    ("angular", ["angularjs"; "angular.js"; "angular 2+"; "ng"]);
    ("vue", ["vuejs"; "vue.js"; "vue3"]);
    ("svelte", ["sveltejs"; "svelte.js"]);
    ("next.js", ["nextjs"; "next"]);
    ("nuxt", ["nuxtjs"; "nuxt.js"]);
    ("jquery", ["jquery.js"]);
    ("bootstrap", ["twitter bootstrap"; "bootstrap css"]);
    ("tailwind", ["tailwindcss"; "tailwind css"]);
    ("node.js", ["nodejs"; "node"; "express.js"; "expressjs"]);
    ("django", ["django python"; "django rest framework"; "drf"]);
    ("flask", ["flask python"]);
    ("fastapi", ["fast api"; "fastapi python"]);
    ("spring", ["spring boot"; "spring framework"; "springboot"]);
    ("rails", ["ruby on rails"; "ror"]);
    ("laravel", ["laravel php"]);
    ("asp.net", ["aspnet"; "asp net"; ".net core"; "dotnet"]);
    ("postgresql", ["postgres"; "psql"; "pg"]);
    ("mysql", ["mariadb"; "maria db"]);
    ("mongodb", ["mongo"; "mongo db"]);
    ("redis", ["redis cache"]);
    ("elasticsearch", ["elastic"; "es"; "elk"]);
    ("dynamodb", ["dynamo db"; "aws dynamodb"]);
    ("cassandra", ["apache cassandra"]);
    ("sqlite", ["sqlite3"]);
    ("oracle", ["oracle db"; "oracle database"; "plsql"; "pl/sql"]);
    ("sql server", ["mssql"; "microsoft sql server"; "ms sql"]);
    ("aws", ["amazon web services"; "amazon aws"]);
    ("azure", ["microsoft azure"; "azure cloud"]);
    ("gcp", ["google cloud"; "google cloud platform"]);
    ("heroku", ["heroku cloud"]);
    ("digitalocean", ["digital ocean"]);
    ("cloudflare", ["cloudflare workers"]);
    ("docker", ["containerization"; "docker compose"; "docker-compose"]);
    ("kubernetes", ["k8s"; "kube"; "k8"; "kubectl"]);
    ("terraform", ["terraform iac"; "tf"]);
    ("ansible", ["ansible automation"]);
    ("jenkins", ["jenkins ci"; "jenkins pipeline"]);
    ("gitlab ci", ["gitlab-ci"; "gitlab ci/cd"]);
    ("github actions", ["gh actions"; "github workflows"]);
    ("circleci", ["circle ci"]);
    ("nginx", ["nginx server"]);
    ("apache", ["apache http"; "httpd"]);
    ("linux", ["unix"; "linux administration"; "rhel"; "centos"; "ubuntu"]);
    ("machine learning", ["ml"; "statistical learning"]);
    ("deep learning", ["dl"; "neural networks"; "nn"]);
    ("tensorflow", ["tf"; "tensorflow 2"]);
    ("pytorch", ["torch"]);
    ("scikit-learn", ["sklearn"; "scikit learn"]);
    ("pandas", ["pandas python"]);
    ("numpy", ["np"; "numpy python"]);
    ("spark", ["apache spark"; "pyspark"]);
    ("hadoop", ["apache hadoop"; "hdfs"]);
    ("kafka", ["apache kafka"]);
    ("rest", ["restful"; "rest api"; "restful api"]);
    ("graphql", ["graph ql"; "gql"]);
    ("grpc", ["g rpc"]);
    ("soap", ["soap api"]);
    ("websocket", ["websockets"; "ws"]);
    ("jest", ["jestjs"]);
    ("pytest", ["py.test"; "python testing"]);
    ("junit", ["junit5"]);
    ("selenium", ["selenium webdriver"]);
    ("cypress", ["cypress.io"]);
    ("mocha", ["mochajs"]);
    ("git", ["github"; "gitlab"; "bitbucket"; "version control"]);
    ("svn", ["subversion"]);
    ("agile", ["scrum"; "kanban"; "agile methodology"]);
    ("jira", ["atlassian jira"]);
    ("confluence", ["atlassian confluence"]);
    ("cybersecurity", ["cyber security"; "infosec"; "information security"]);
    ("penetration testing", ["pen testing"; "pentest"; "ethical hacking"]);
    ("oauth", ["oauth2"; "oauth 2.0"]);
    ("jwt", ["json web token"; "json web tokens"]);
    ("microservices", ["micro services"; "microservice architecture"]);
    ("ci/cd", ["cicd"; "ci cd"; "continuous integration"; "continuous deployment"]);
    ("api", ["apis"; "api development"]) ].

(** The body of the loop that fills [_REVERSE_LOOKUP] for one entry. *)
Definition add_entry (m : gmap string string) (e : string * list string)
  : gmap string string :=
  let '(canonical, synonyms) := e in
  foldl (fun m syn => <[PyStr.lower syn := canonical]> m)
        (<[PyStr.lower canonical := canonical]> m) synonyms.

Definition _REVERSE_LOOKUP : gmap string string :=
  foldl add_entry ∅ SKILL_SYNONYMS.

Definition normalize_skill (skill : string) : string :=
  if negb (PyStr.truthy skill) then ""
  else
    let skill_lower := PyStr.strip (PyStr.lower skill) in
    match _REVERSE_LOOKUP !! skill_lower with
    | Some canonical => canonical
    | None => skill_lower
    end.

(** [display_names] of [get_canonical_skill]. *)
Definition display_names : gmap string string :=
  list_to_map
    [ ("javascript", "JavaScript"); ("typescript", "TypeScript");
      ("python", "Python"); ("java", "Java"); ("c#", "C#"); ("c++", "C++");
      ("go", "Go"); ("rust", "Rust"); ("ruby", "Ruby"); ("php", "PHP");
      ("swift", "Swift"); ("kotlin", "Kotlin"); ("react", "React");
      ("angular", "Angular"); ("vue", "Vue.js"); ("node.js", "Node.js");
      ("django", "Django"); ("flask", "Flask"); ("fastapi", "FastAPI");
      ("spring", "Spring"); ("postgresql", "PostgreSQL"); ("mysql", "MySQL");
      ("mongodb", "MongoDB"); ("redis", "Redis");
      ("elasticsearch", "Elasticsearch"); ("aws", "AWS"); ("azure", "Azure");
      ("gcp", "GCP"); ("docker", "Docker"); ("kubernetes", "Kubernetes");
      ("terraform", "Terraform"); ("ansible", "Ansible");
      ("jenkins", "Jenkins"); ("linux", "Linux"); ("git", "Git");
      ("machine learning", "Machine Learning");
      ("deep learning", "Deep Learning"); ("tensorflow", "TensorFlow");
      ("pytorch", "PyTorch"); ("scikit-learn", "scikit-learn");
      ("pandas", "Pandas"); ("numpy", "NumPy"); ("rest", "REST API");
      ("graphql", "GraphQL"); ("sql", "SQL"); ("agile", "Agile");
      ("ci/cd", "CI/CD"); ("microservices", "Microservices") ].

(** [display_names.get(normalized, skill)] *)
Definition get_canonical_skill (skill : string) : string :=
  let normalized := normalize_skill skill in
  default skill (display_names !! normalized).

Definition skills_match (skill1 skill2 : string) : bool :=
  if negb (PyStr.truthy skill1) || negb (PyStr.truthy skill2) then false
  else bool_decide (normalize_skill skill1 = normalize_skill skill2).

(** The loop of [find_matching_skills] over the job's skills. *)
Fixpoint partition_skills (resume_normalized : gset string)
    (job_skills : list string) : list string * list string :=
  match job_skills with
  | [] => ([], [])
  | skill :: rest =>
      let '(matched, missing) := partition_skills resume_normalized rest in
      let skill_normalized := normalize_skill skill in
      if bool_decide (skill_normalized ∈ resume_normalized)
      then (get_canonical_skill skill :: matched, missing)
      else (matched, get_canonical_skill skill :: missing)
  end.

Definition find_matching_skills (resume_skills job_skills : list string)
  : list string * list string :=
  let resume_normalized : gset string :=
    list_to_set (normalize_skill <$> resume_skills) in
  partition_skills resume_normalized job_skills.

(** [SKILL_SYNONYMS] as the dict it is: its keys are pairwise distinct. *)
Definition synonyms_dict : gmap string (list string) :=
  list_to_map SKILL_SYNONYMS.

Definition get_all_synonyms (skill : string) : gset string :=
  let normalized := normalize_skill skill in
  match synonyms_dict !! normalized with
  | Some synonyms => list_to_set synonyms ∪ {[normalized]}
  | None => {[PyStr.lower skill]}
  end.

End SkillSynonyms.


(** ** Python numerics on the rationals *)

Module PyNum.

(** [round(x, ndigits)] on an exact value: to the nearest multiple of
    [10^-ndigits], a tie going to the even one. *)
Definition round_half_even (q : Q) : Z :=
  let f := Qfloor q in
  let r := (q - inject_Z f)%Q in
  match Qcompare r (1 # 2) with
  | Lt => f
  | Gt => (f + 1)%Z
  | Eq => if Z.even f then f else (f + 1)%Z
  end.

Definition round (q : Q) (ndigits : nat) : Q :=
  let p := (10 ^ Z.of_nat ndigits)%Z in
  (inject_Z (round_half_even (q * inject_Z p)) / inject_Z p)%Q.

(** [float(n)] of an [int], [len(l)] as a float operand. *)
Definition of_nat (n : nat) : Q := inject_Z (Z.of_nat n).

(** [a < b], [a >= b], [a <= b], [a == b] on floats. *)
Definition ltb (a b : Q) : bool :=
  match Qcompare a b with Lt => true | _ => false end.
Definition geb (a b : Q) : bool := Qle_bool b a.
Definition leb (a b : Q) : bool := Qle_bool a b.
Definition eqb (a b : Q) : bool := Qeq_bool a b.

(** [f"{n:,}"] for an [int]: its decimal digits in groups of three. *)
Fixpoint group3 (rev_digits : list ascii) : list ascii :=
  match rev_digits with
  | c1 :: c2 :: c3 :: rest =>
      match rest with
      | [] => [c1; c2; c3]
      | _ => c1 :: c2 :: c3 :: ","%char :: group3 rest
      end
  | _ => rev_digits
  end.

Definition format_thousands (n : Z) : string :=
  let digits := list_ascii_of_string (pretty (Z.abs_N n)) in
  (if (n <? 0)%Z then "-" else "")
  +:+ string_of_list_ascii (rev (group3 (rev digits))).

End PyNum.

(** ** job_matcher/models/match_result.py *)

Module MatchResultModel.

Record SkillGap := mkSkillGap {
  skill : string;
  importance : string;
  category : string;
  learning_path : option string;
  estimated_time : option string
}.

(** [UPSKILLING_RECOMMENDATIONS]: per skill, its [learning_path],
    [resources] and [estimated_time]. *)
Record Recommendation := mkRec {
  rec_learning_path : string;
  rec_resources : list string;
  rec_estimated_time : string
}.

Definition UPSKILLING_RECOMMENDATIONS : gmap string Recommendation :=
  list_to_map
    [ ("kubernetes",
       mkRec "Container orchestration for cloud-native applications"
             ["Kubernetes.io docs"; "CKAD certification"; "KodeKloud"]
             "2-3 months");
      ("docker",
       mkRec "Containerization fundamentals"
             ["Docker official docs"; "Docker Captain tutorials"]
             "2-4 weeks");
      ("aws",
       mkRec "Cloud computing with Amazon Web Services"
             ["AWS Free Tier"; "AWS Certified Cloud Practitioner"]
             "1-2 months");
      ("terraform",
       mkRec "Infrastructure as Code"
             ["Terraform tutorials"; "HashiCorp certification"]
             "3-4 weeks");
      ("python",
       mkRec "General-purpose programming language"
             ["Python.org tutorial"; "Real Python"; "Codecademy"]
             "2-3 months");
      ("react",
       mkRec "Modern frontend development with React"
             ["React.dev"; "Scrimba"; "Frontend Masters"]
             "1-2 months");
      ("typescript",
       mkRec "Type-safe JavaScript development"
             ["TypeScript Handbook"; "Execute Program"]
             "2-4 weeks");
      ("graphql",
       mkRec "Modern API query language"
             ["GraphQL.org"; "Apollo tutorials"]
             "2-3 weeks");
      ("machine learning",
       mkRec "AI and statistical modeling"
             ["Coursera ML course"; "fast.ai"; "Kaggle"]
             "3-6 months");
      ("postgresql",
       mkRec "Advanced relational database"
             ["PostgreSQL docs"; "pgexercises.com"]
             "3-4 weeks") ].

End MatchResultModel.

Module MatchResult.
Import MatchResultModel.

Record t := mk {
  score : Q;
  semantic_score : Q;
  skill_score : Q;
  experience_score : Q;
  matched_skills : list string;
  missing_required_skills : list string;
  missing_preferred_skills : list string;
  skill_gaps : list SkillGap;
  upskilling_recommendations : list string;
  clearance_met : bool;
  disqualified : bool;
  disqualification_reason : option string;
  job_id : option string;
  job_title : option string;
  job_company : option string;
  explanation : string
}.

(** The dataclass defaults of [MatchResult()]. *)
Definition init : t :=
  {| score := 0; semantic_score := 0; skill_score := 0;
     experience_score := 0; matched_skills := [];
     missing_required_skills := []; missing_preferred_skills := [];
     skill_gaps := []; upskilling_recommendations := [];
     clearance_met := true; disqualified := false;
     disqualification_reason := None; job_id := None; job_title := None;
     job_company := None; explanation := "" |}.

(** [MatchResult(score=q)] *)
Definition of_score (q : Q) : t :=
  {| score := q; semantic_score := 0; skill_score := 0;
     experience_score := 0; matched_skills := [];
     missing_required_skills := []; missing_preferred_skills := [];
     skill_gaps := []; upskilling_recommendations := [];
     clearance_met := true; disqualified := false;
     disqualification_reason := None; job_id := None; job_title := None;
     job_company := None; explanation := "" |}.

Definition set_explanation (r : t) (e : string) : t :=
  {| score := score r; semantic_score := semantic_score r;
     skill_score := skill_score r; experience_score := experience_score r;
     matched_skills := matched_skills r;
     missing_required_skills := missing_required_skills r;
     missing_preferred_skills := missing_preferred_skills r;
     skill_gaps := skill_gaps r;
     upskilling_recommendations := upskilling_recommendations r;
     clearance_met := clearance_met r; disqualified := disqualified r;
     disqualification_reason := disqualification_reason r;
     job_id := job_id r; job_title := job_title r;
     job_company := job_company r; explanation := e |}.

Definition get_tier (self : t) : string :=
  if disqualified self then "Disqualified"
  else if PyNum.geb (score self) 85 then "Excellent"
  else if PyNum.geb (score self) 70 then "Strong"
  else if PyNum.geb (score self) 55 then "Good"
  else if PyNum.geb (score self) 40 then "Fair"
  else "Weak".

(** [', '.join(l)] *)
Fixpoint join (sep : string) (l : list string) : string :=
  match l with
  | [] => ""
  | [x] => x
  | x :: r => x +:+ sep +:+ join sep r
  end.

(** An f-string field [{v}] for an optional string prints [None]. *)
Definition fmt_opt (o : option string) : string := default "None" o.

Definition generate_explanation (self : t) : string :=
  if disqualified self then
    "Not qualified: " +:+ fmt_opt (disqualification_reason self)
  else
    let tier := get_tier self in
    let l1 :=
      if String.eqb tier "Excellent" then
        ["Outstanding match with strong alignment across all criteria."]
      else if String.eqb tier "Strong" then
        ["Strong candidate with good technical and experience fit."]
      else if String.eqb tier "Good" then
        ["Solid match with some areas for growth."]
      else if String.eqb tier "Fair" then
        ["Moderate fit - may require additional training."]
      else ["Limited match - significant gaps identified."] in
    let l2 :=
      match matched_skills self with
      | [] => []
      | ms =>
          ["Matches " +:+ pretty (length ms) +:+ " key skills: "
           +:+ join ", " (take 5 ms)
           +:+ (if bool_decide (5 < length ms) then "..." else "") +:+ "."]
      end in
    let l3 :=
      match missing_required_skills self with
      | [] => []
      | ms =>
          ["Missing " +:+ pretty (length ms) +:+ " required skills: "
           +:+ join ", " (take 3 ms)
           +:+ (if bool_decide (3 < length ms) then "..." else "") +:+ "."]
      end in
    let l4 :=
      if clearance_met self then ["Meets security clearance requirements."]
      else [] in
    join " " (l1 ++ l2 ++ l3 ++ l4).

(** [__lt__]: ordering by score. *)
Definition lt (self other : t) : bool :=
  PyNum.ltb (score self) (score other).

(** [__eq__] against another [MatchResult]: the [isinstance] test passes
    and the scores are compared with tolerance.  The [@dataclass]
    decorator keeps a [__eq__] that the class body defines. *)
Definition eq (self other : t) : bool :=
  PyNum.ltb (Qabs (score self - score other)) (1 # 100).

End MatchResult.

(** ** job_matcher/scoring/skill_scorer.py *)

Module SkillMatchResult.
Import MatchResultModel.

Record t := mk {
  score : Q;
  matched_skills : list string;
  missing_required : list string;
  missing_preferred : list string;
  gaps : list SkillGap
}.

End SkillMatchResult.

Module SkillScorer.
Import SkillSynonyms MatchResultModel.

(** The scorer object: its two weights. *)
Record t := mk { required_weight : Q; preferred_weight : Q }.

(** [SkillScorer()] *)
Definition init : t := {| required_weight := 2; preferred_weight := 1 |}.

(** [{normalize_skill(s) for s in skills if s}] *)
Definition normalized_set (skills : list string) : gset string :=
  list_to_set (normalize_skill <$> filter (fun s => PyStr.truthy s) skills).

(** [sorted(l)] on strings: code point order. *)
Definition str_le (a b : string) : Prop := String.leb a b.
Definition sorted (l : list string) : list string := merge_sort str_le l.

(** The loop of [_get_display_skills], with its [seen] set. *)
Fixpoint display_loop (normalized_skills : gset string)
    (original_skills : list string) (seen : gset string) : list string :=
  match original_skills with
  | [] => []
  | skill :: rest =>
      let norm := normalize_skill skill in
      if bool_decide (norm ∈ normalized_skills) && bool_decide (norm ∉ seen)
      then get_canonical_skill skill
           :: display_loop normalized_skills rest ({[norm]} ∪ seen)
      else display_loop normalized_skills rest seen
  end.

Definition _get_display_skills (normalized_skills : gset string)
    (original_skills : list string) : list string :=
  display_loop normalized_skills original_skills ∅.

Definition programming : list string :=
  ["python"; "java"; "javascript"; "typescript"; "c++"; "c#";
   "go"; "rust"; "ruby"; "php"; "swift"; "kotlin"; "scala"].
Definition frontend : list string :=
  ["react"; "angular"; "vue"; "svelte"; "html"; "css";
   "tailwind"; "bootstrap"; "jquery"].
Definition backend : list string :=
  ["django"; "flask"; "fastapi"; "spring"; "node.js"; "express";
   "rails"; "laravel"; "asp.net"].
Definition database : list string :=
  ["postgresql"; "mysql"; "mongodb"; "redis"; "elasticsearch";
   "dynamodb"; "cassandra"; "sql"; "oracle"].
Definition cloud : list string :=
  ["aws"; "azure"; "gcp"; "heroku"; "digitalocean"].
Definition devops : list string :=
  ["docker"; "kubernetes"; "terraform"; "ansible"; "jenkins";
   "ci/cd"; "linux"; "nginx"].
Definition data : list string :=
  ["machine learning"; "deep learning"; "tensorflow"; "pytorch";
   "pandas"; "numpy"; "spark"; "hadoop"].

Definition _categorize_skill (skill : string) : string :=
  let normalized := normalize_skill skill in
  if bool_decide (normalized ∈ programming) then "programming"
  else if bool_decide (normalized ∈ frontend) then "frontend"
  else if bool_decide (normalized ∈ backend) then "backend"
  else if bool_decide (normalized ∈ database) then "database"
  else if bool_decide (normalized ∈ cloud) then "cloud"
  else if bool_decide (normalized ∈ devops) then "devops"
  else if bool_decide (normalized ∈ data) then "data_science"
  else "technical".

Definition _build_skill_gaps (missing_required missing_preferred : list string)
  : list SkillGap :=
  ((fun skill => mkSkillGap skill "required" (_categorize_skill skill) None None)
     <$> missing_required)
  ++ ((fun skill => mkSkillGap skill "preferred" (_categorize_skill skill) None None)
        <$> missing_preferred).

Definition score (self : t)
    (resume_skills required_skills preferred_skills : list string)
  : SkillMatchResult.t :=
  let resume_normalized := normalized_set resume_skills in
  let required_normalized := normalized_set required_skills in
  let preferred_normalized := normalized_set preferred_skills in
  let matched_required_norm := resume_normalized ∩ required_normalized in
  let matched_preferred_norm := resume_normalized ∩ preferred_normalized in
  let missing_required_norm := required_normalized ∖ matched_required_norm in
  let missing_preferred_norm := preferred_normalized ∖ matched_preferred_norm in
  let total_possible :=
    (PyNum.of_nat (size required_normalized) * required_weight self
     + PyNum.of_nat (size preferred_normalized) * preferred_weight self)%Q in
  let score :=
    if PyNum.eqb total_possible 0 then (1 # 2)%Q
    else
      let matched_points :=
        (PyNum.of_nat (size matched_required_norm) * required_weight self
         + PyNum.of_nat (size matched_preferred_norm) * preferred_weight self)%Q in
      (matched_points / total_possible)%Q in
  let matched_skills :=
    _get_display_skills (matched_required_norm ∪ matched_preferred_norm)
                        (required_skills ++ preferred_skills) in
  let missing_required :=
    _get_display_skills missing_required_norm required_skills in
  let missing_preferred :=
    _get_display_skills missing_preferred_norm preferred_skills in
  let gaps := _build_skill_gaps missing_required missing_preferred in
  {| SkillMatchResult.score := Qmin score 1;
     SkillMatchResult.matched_skills := sorted matched_skills;
     SkillMatchResult.missing_required := sorted missing_required;
     SkillMatchResult.missing_preferred := sorted missing_preferred;
     SkillMatchResult.gaps := gaps |}.

Definition get_skill_overlap_percentage (self : t)
    (resume_skills job_skills : list string) : Q :=
  match job_skills with
  | [] => 0
  | _ =>
      let resume_normalized : gset string :=
        list_to_set (normalize_skill <$> resume_skills) in
      let job_normalized : gset string :=
        list_to_set (normalize_skill <$> job_skills) in
      let matched := resume_normalized ∩ job_normalized in
      (PyNum.of_nat (size matched) / PyNum.of_nat (size job_normalized)
       * 100)%Q
  end.

End SkillScorer.

(** ** The fragment of Python's [re] that the patterns of the repository use

    Patterns are syntax trees; matching is the backtracking search of [re]
    (greedy repetition, ordered alternation, leftmost match), written with
    a continuation.  A position in the text is a pair: the characters
    before it, nearest first, and the characters after it. *)

Module Regex.

(** [\w] below 256: alphanumeric code points and the underscore. *)
Definition isword (c : ascii) : bool :=
  let n := N_of_ascii c in
  (((48 <=? n) && (n <=? 57)) || ((65 <=? n) && (n <=? 90)) || (n =? 95)
   || ((97 <=? n) && (n <=? 122)) || (n =? 170) || (n =? 178) || (n =? 179)
   || (n =? 181) || (n =? 185) || (n =? 186) || ((188 <=? n) && (n <=? 190))
   || ((192 <=? n) && (n <=? 214)) || ((216 <=? n) && (n <=? 246))
   || (248 <=? n))%N.

(** [\d] below 256. *)
Definition isdigit (c : ascii) : bool :=
  let n := N_of_ascii c in ((48 <=? n) && (n <=? 57))%N.

(** A member of a character class. *)
Inductive item :=
| IChr (c : ascii)
| ISpace
| IDigit.

Inductive re :=
| Lit (s : string)                (* literal text *)
| Cls (cl : list item)            (* one character of a class *)
| Star (cl : list item)           (* class*, greedy *)
| Plus (cl : list item)           (* class+, greedy *)
| Opt (r : re)                    (* r?, greedy *)
| Seq (r1 r2 : re)
| Alt (r1 r2 : re)                (* r1|r2, r1 first *)
| WordB                           (* \b *)
| Group (r : re)                  (* capturing group 1 *)
| NotBehind (w : nat) (r : re)    (* (?<!r), r of fixed width w *)
| NotAhead (r : re).              (* (?!r) *)

Definition is_item (i : item) (c : ascii) : bool :=
  match i with
  | IChr c' => Ascii.eqb c c'
  | ISpace => PyStr.isspace c
  | IDigit => isdigit c
  end.

Definition in_cls (cl : list item) (c : ascii) : bool :=
  existsb (fun i => is_item i c) cl.

(** Whether the character next to a position, if any, is a word character. *)
Definition word_at (l : list ascii) : bool :=
  match l with c :: _ => isword c | [] => false end.

Definition orelse {R : Type} (x y : option R) : option R :=
  match x with Some _ => x | None => y end.

Section Matcher.
Context {R : Type}.

Fixpoint lit (s : string) (b a : list ascii)
    (k : list ascii -> list ascii -> option R) : option R :=
  match s with
  | EmptyString => k b a
  | String c s' =>
      match a with
      | c' :: a' => if Ascii.eqb c c' then lit s' (c' :: b) a' k else None
      | [] => None
      end
  end.

Fixpoint star (cl : list item) (a b : list ascii)
    (k : list ascii -> list ascii -> option R) : option R :=
  match a with
  | c :: a' =>
      if in_cls cl c then orelse (star cl a' (c :: b) k) (k b a) else k b a
  | [] => k b a
  end.

Definition plus (cl : list item) (a b : list ascii)
    (k : list ascii -> list ascii -> option R) : option R :=
  match a with
  | c :: a' => if in_cls cl c then star cl a' (c :: b) k else None
  | [] => None
  end.

End Matcher.

(** [run r b a g k]: match [r] at the position [(b, a)] with group 1
    bound to [g], and go on with [k] from where the match ends. *)
Fixpoint run (R : Type) (r : re) (b a : list ascii) (g : option (list ascii))
    (k : list ascii -> list ascii -> option (list ascii) -> option R)
  : option R :=
  match r with
  | Lit s => lit s b a (fun b' a' => k b' a' g)
  | Cls cl =>
      match a with
      | c :: a' => if in_cls cl c then k (c :: b) a' g else None
      | [] => None
      end
  | Star cl => star cl a b (fun b' a' => k b' a' g)
  | Plus cl => plus cl a b (fun b' a' => k b' a' g)
  | Opt r1 => orelse (run R r1 b a g k) (k b a g)
  | Seq r1 r2 => run R r1 b a g (fun b' a' g' => run R r2 b' a' g' k)
  | Alt r1 r2 => orelse (run R r1 b a g k) (run R r2 b a g k)
  | WordB => if xorb (word_at b) (word_at a) then k b a g else None
  | Group r1 =>
      run R r1 b a g
          (fun b' a' _ => k b' a' (Some (take (length a - length a') a)))
  | NotBehind w r1 =>
      if (length b <? w)%nat then k b a g
      else
        match run unit r1 (drop w b) (rev (take w b) ++ a) g
                  (fun _ a' _ =>
                     if (length a' =? length a)%nat then Some tt else None)
        with
        | Some _ => None
        | None => k b a g
        end
  | NotAhead r1 =>
      match run unit r1 b a g (fun _ _ _ => Some tt) with
      | Some _ => None
      | None => k b a g
      end
  end.

(** A match object: [group()] and [group(1)]. *)
Record match_obj := mkMatch { group0 : string; group1 : option string }.

Definition match_here (r : re) (b a : list ascii) : option match_obj :=
  run match_obj r b a None
      (fun _ a' g =>
         Some (mkMatch (string_of_list_ascii (take (length a - length a') a))
                       (string_of_list_ascii <$> g))).

Fixpoint search_from (r : re) (b a : list ascii) : option match_obj :=
  match match_here r b a with
  | Some m => Some m
  | None =>
      match a with
      | c :: a' => search_from r (c :: b) a'
      | [] => None
      end
  end.

(** [re.search(pattern, text)] *)
Definition search (r : re) (text : string) : option match_obj :=
  search_from r [] (list_ascii_of_string text).

(** [if re.search(pattern, text):] *)
Definition found (r : re) (text : string) : bool :=
  bool_decide (is_Some (search r text)).

Module Notations.
Infix "⋅" := Seq (at level 41, right associativity).
Notation "\b" := WordB.
Notation "\s+" := (Plus [ISpace]).
Notation "\s*" := (Star [ISpace]).
Notation "\s" := (Cls [ISpace]).
Notation "\d+" := (Plus [IDigit]).
Notation "\d" := (Cls [IDigit]).
End Notations.

End Regex.

(** ** job_matcher/utils/clearance.py *)

Module Clearance.
Import Regex Regex.Notations.

(** [ClearanceLevel(IntEnum)] *)
Inductive ClearanceLevel :=
| NONE
| PUBLIC_TRUST
| SECRET
| TOP_SECRET
| TS_SCI.

#[export] Instance ClearanceLevel_eq_dec : EqDecision ClearanceLevel.
Proof. solve_decision. Defined.

(** The integer value of a member. *)
Definition value (l : ClearanceLevel) : Z :=
  match l with
  | NONE => 0
  | PUBLIC_TRUST => 1
  | SECRET => 2
  | TOP_SECRET => 3
  | TS_SCI => 4
  end.

(** The character class [[/-]]. *)
Definition slash_dash : list item := [IChr "/"; IChr "-"].

Definition CLEARANCE_PATTERNS (level : ClearanceLevel) : list re :=
  match level with
  | TS_SCI =>
      [ \b ⋅ Lit "ts" ⋅ Opt (Cls slash_dash) ⋅ Lit "sci" ⋅ \b;
        \b ⋅ Lit "top" ⋅ \s+ ⋅ Lit "secret" ⋅ Opt (Cls slash_dash)
          ⋅ Lit "sci" ⋅ \b;
        \b ⋅ Lit "ts" ⋅ \s+ ⋅ Lit "w" ⋅ Opt (Lit "ith") ⋅ \s+ ⋅ Lit "sci" ⋅ \b;
        \b ⋅ Lit "sci" ⋅ \s+ ⋅ Lit "clearance" ⋅ \b;
        \b ⋅ Lit "sci" ⋅ \s+ ⋅ Lit "eligible" ⋅ \b ]
  | TOP_SECRET =>
      [ \b ⋅ Lit "top" ⋅ \s+ ⋅ Lit "secret" ⋅ \b;
        \b ⋅ Lit "ts" ⋅ \s+ ⋅ Lit "clearance" ⋅ \b;
        \b ⋅ Lit "ts" ⋅ \s+ ⋅ Lit "eligible" ⋅ \b;
        NotBehind 1 (Cls slash_dash) ⋅ \b ⋅ Lit "ts" ⋅ \b
          ⋅ NotAhead (Cls slash_dash) ]
  | SECRET =>
      [ \b ⋅ Lit "secret" ⋅ \s+ ⋅ Lit "clearance" ⋅ \b;
        \b ⋅ Lit "secret" ⋅ \s+ ⋅ Lit "eligible" ⋅ \b;
        \b ⋅ Lit "active" ⋅ \s+ ⋅ Lit "secret" ⋅ \b;
        \b ⋅ Lit "current" ⋅ \s+ ⋅ Lit "secret" ⋅ \b;
        NotBehind 4 (Lit "top" ⋅ \s) ⋅ \b ⋅ Lit "secret" ⋅ \b
          ⋅ NotAhead (\s+ ⋅ Lit "service") ]
  | PUBLIC_TRUST =>
      [ \b ⋅ Lit "public" ⋅ \s+ ⋅ Lit "trust" ⋅ \b;
        \b ⋅ Lit "moderate" ⋅ \s+ ⋅ Lit "risk" ⋅ \b;
        \b ⋅ Lit "high" ⋅ \s+ ⋅ Lit "risk" ⋅ \s+ ⋅ Lit "public" ⋅ \s+
          ⋅ Lit "trust" ⋅ \b;
        \b ⋅ Lit "mbi" ⋅ \b ]
  | NONE => []
  end.

(** The inner loop: some pattern of the list is found in the text. *)
Definition any_found (patterns : list re) (text_lower : string) : bool :=
  existsb (fun pattern => found pattern text_lower) patterns.

(** The outer loop over the levels, highest first. *)
Fixpoint first_level (levels : list ClearanceLevel) (text_lower : string)
  : ClearanceLevel :=
  match levels with
  | [] => NONE
  | level :: rest =>
      if any_found (CLEARANCE_PATTERNS level) text_lower then level
      else first_level rest text_lower
  end.

Definition levels_tried : list ClearanceLevel :=
  [TS_SCI; TOP_SECRET; SECRET; PUBLIC_TRUST].

Definition detect_clearance_from_text (text : string) : ClearanceLevel :=
  if negb (PyStr.truthy text) then NONE
  else
    let text_lower := PyStr.lower text in
    first_level levels_tried text_lower.

(** Some pattern of a level is found somewhere in the case-folded text. *)
Definition level_found (level : ClearanceLevel) (text : string) : bool :=
  any_found (CLEARANCE_PATTERNS level) (PyStr.lower text).

Definition meets_clearance_requirement
    (resume_clearance job_clearance : ClearanceLevel) : bool :=
  (value job_clearance <=? value resume_clearance)%Z.

Definition clearance_to_string (level : ClearanceLevel) : string :=
  match level with
  | NONE => "None Required"
  | PUBLIC_TRUST => "Public Trust"
  | SECRET => "Secret"
  | TOP_SECRET => "Top Secret"
  | TS_SCI => "TS/SCI"
  end.

(** The [mappings] of [parse_clearance_string]. *)
Definition mappings : gmap string ClearanceLevel :=
  list_to_map
    [ ("none", NONE); ("none required", NONE);
      ("public trust", PUBLIC_TRUST); ("public_trust", PUBLIC_TRUST);
      ("secret", SECRET); ("top secret", TOP_SECRET);
      ("top_secret", TOP_SECRET); ("topsecret", TOP_SECRET);
      ("ts", TOP_SECRET); ("ts/sci", TS_SCI); ("ts_sci", TS_SCI);
      ("tssci", TS_SCI); ("sci", TS_SCI) ].

Definition parse_clearance_string (clearance_str : string) : ClearanceLevel :=
  if negb (PyStr.truthy clearance_str) then NONE
  else
    let normalized := PyStr.strip (PyStr.lower clearance_str) in
    default NONE (mappings !! normalized).

Definition FEDERAL_INDICATORS : list re :=
  [ \b ⋅ Lit "dod" ⋅ \b;
    \b ⋅ Lit "department" ⋅ \s+ ⋅ Lit "of" ⋅ \s+ ⋅ Lit "defense" ⋅ \b;
    \b ⋅ Lit "defense" ⋅ \s+ ⋅ Lit "contractor" ⋅ \b;
    \b ⋅ Lit "cleared" ⋅ \b;
    \b ⋅ Lit "clearance" ⋅ \b;
    \b ⋅ Lit "polygraph" ⋅ \b;
    \b ⋅ Lit "full" ⋅ \s+ ⋅ Lit "scope" ⋅ \s+ ⋅ Lit "poly" ⋅ \b;
    \b ⋅ Lit "ci" ⋅ \s+ ⋅ Lit "poly" ⋅ \b;
    \b ⋅ Lit "lifestyle" ⋅ \s+ ⋅ Lit "poly" ⋅ \b;
    \b ⋅ Lit "nispom" ⋅ \b;
    \b ⋅ Lit "scif" ⋅ \b ].

Definition has_federal_context (text : string) : bool :=
  if negb (PyStr.truthy text) then false
  else any_found FEDERAL_INDICATORS (PyStr.lower text).

(** [level.name] and [ClearanceLevel[name]]; [None] is the [KeyError]. *)
Definition name (level : ClearanceLevel) : string :=
  match level with
  | NONE => "NONE"
  | PUBLIC_TRUST => "PUBLIC_TRUST"
  | SECRET => "SECRET"
  | TOP_SECRET => "TOP_SECRET"
  | TS_SCI => "TS_SCI"
  end.

Definition of_name (s : string) : option ClearanceLevel :=
  if String.eqb s "NONE" then Some NONE
  else if String.eqb s "PUBLIC_TRUST" then Some PUBLIC_TRUST
  else if String.eqb s "SECRET" then Some SECRET
  else if String.eqb s "TOP_SECRET" then Some TOP_SECRET
  else if String.eqb s "TS_SCI" then Some TS_SCI
  else None.

End Clearance.

(** ** [datetime.strptime] on the formats the experience scorer tries

    The library compiles a format to a regular expression (case-insensitive,
    a blank of the format standing for [\s+]), matches it at the start of
    the text, refuses text that the match leaves over, and builds the date,
    which checks the year and the day of the month.  The directives below
    are those of [ExperienceScorer.formats]; any other is refused. *)

Module PyDatetime.

Record datetime := mkDate { year : Z; month : Z; day : Z }.

Inductive directive :=
| DYear             (* %Y: \d\d\d\d *)
| DMonth            (* %m: 1[0-2]|0[1-9]|[1-9] *)
| DDay              (* %d: 3[0-1]|[1-2]\d|0[1-9]|[1-9]| [1-9] *)
| DMonthName        (* %B *)
| DMonthAbbr        (* %b *)
| DSpaces           (* \s+ *)
| DLit (c : ascii).

Fixpoint compile (fmt : list ascii) : option (list directive) :=
  match fmt with
  | [] => Some []
  | "%"%char :: d :: rest =>
      ds ← compile rest;
      (if Ascii.eqb d "Y" then Some (DYear :: ds)
       else if Ascii.eqb d "m" then Some (DMonth :: ds)
       else if Ascii.eqb d "d" then Some (DDay :: ds)
       else if Ascii.eqb d "B" then Some (DMonthName :: ds)
       else if Ascii.eqb d "b" then Some (DMonthAbbr :: ds)
       else None)
  | c :: rest =>
      ds ← compile rest;
      Some ((if PyStr.isspace c then DSpaces else DLit c) :: ds)
  end.

Definition digit (c : ascii) : Z := Z.of_N (N_of_ascii c) - 48.

Definition between (lo hi c : ascii) : bool :=
  ((N_of_ascii lo <=? N_of_ascii c) && (N_of_ascii c <=? N_of_ascii hi))%N.

(** The month names of the C locale, in the order of the compiled
    alternation (longest first). *)
Definition month_names : list (string * Z) :=
  [("september", 9); ("february", 2); ("november", 11); ("december", 12);
   ("january", 1); ("october", 10); ("august", 8); ("march", 3);
   ("april", 4); ("june", 6); ("july", 7); ("may", 5)]%Z.

Definition month_abbrs : list (string * Z) :=
  [("jan", 1); ("feb", 2); ("mar", 3); ("apr", 4); ("may", 5); ("jun", 6);
   ("jul", 7); ("aug", 8); ("sep", 9); ("oct", 10); ("nov", 11);
   ("dec", 12)]%Z.

(** The text after a case-insensitive prefix, if the text starts with it. *)
Fixpoint after_prefix (p : string) (a : list ascii) : option (list ascii) :=
  match p with
  | EmptyString => Some a
  | String c p' =>
      match a with
      | c' :: a' =>
          if Ascii.eqb (PyStr.lower_char c') c then after_prefix p' a' else None
      | [] => None
      end
  end.

Definition name_parses (names : list (string * Z)) (a : list ascii)
  : list (Z * list ascii) :=
  omap (fun '(n, v) => (fun r => (v, r)) <$> after_prefix n a) names.

(** The ways a directive reads a value off the text, in the order the
    alternation tries them: the value and the text left. *)
Definition month_parses (a : list ascii) : list (Z * list ascii) :=
  match a with
  | c1 :: r1 =>
      ((match r1 with
        | c2 :: r2 =>
            (if Ascii.eqb c1 "1" && between "0" "2" c2
             then [((10 + digit c2)%Z, r2)] else [])
            ++ (if Ascii.eqb c1 "0" && between "1" "9" c2
                then [(digit c2, r2)] else [])
        | [] => []
        end)
       ++ (if between "1" "9" c1 then [(digit c1, r1)] else []))%list
  | [] => []
  end.

Definition day_parses (a : list ascii) : list (Z * list ascii) :=
  match a with
  | c1 :: r1 =>
      ((match r1 with
        | c2 :: r2 =>
            (if Ascii.eqb c1 "3" && between "0" "1" c2
             then [((30 + digit c2)%Z, r2)] else [])
            ++ (if between "1" "2" c1 && Regex.isdigit c2
                then [((10 * digit c1 + digit c2)%Z, r2)] else [])
            ++ (if Ascii.eqb c1 "0" && between "1" "9" c2
                then [(digit c2, r2)] else [])
        | [] => []
        end)
       ++ (if between "1" "9" c1 then [(digit c1, r1)] else [])
       ++ (match r1 with
           | c2 :: r2 =>
               if Ascii.eqb c1 " " && between "1" "9" c2
               then [(digit c2, r2)] else []
           | [] => []
           end))%list
  | [] => []
  end.

Definition year_parses (a : list ascii) : list (Z * list ascii) :=
  match a with
  | c1 :: c2 :: c3 :: c4 :: r =>
      if Regex.isdigit c1 && Regex.isdigit c2 && Regex.isdigit c3
         && Regex.isdigit c4
      then [((1000 * digit c1 + 100 * digit c2 + 10 * digit c3 + digit c4)%Z, r)]
      else []
  | _ => []
  end.

(** [\s+]: the texts left after one or more blanks, the longest run first. *)
Fixpoint spaces_parses (a : list ascii) : list (list ascii) :=
  match a with
  | c :: r => if PyStr.isspace c then (spaces_parses r ++ [r])%list else []
  | [] => []
  end.

(** The first alternative, in order, from which the rest matches. *)
Fixpoint first_of {A B : Type} (l : list A) (k : A -> option B) : option B :=
  match l with
  | [] => None
  | x :: r => match k x with Some y => Some y | None => first_of r k end
  end.

Fixpoint run (ds : list directive) (a : list ascii) (d : datetime)
  : option (datetime * list ascii) :=
  match ds with
  | [] => Some (d, a)
  | DYear :: ds' =>
      first_of (year_parses a)
               (fun '(v, r) => run ds' r (mkDate v (month d) (day d)))
  | DMonth :: ds' =>
      first_of (month_parses a)
               (fun '(v, r) => run ds' r (mkDate (year d) v (day d)))
  | DDay :: ds' =>
      first_of (day_parses a)
               (fun '(v, r) => run ds' r (mkDate (year d) (month d) v))
  | DMonthName :: ds' =>
      first_of (name_parses month_names a)
               (fun '(v, r) => run ds' r (mkDate (year d) v (day d)))
  | DMonthAbbr :: ds' =>
      first_of (name_parses month_abbrs a)
               (fun '(v, r) => run ds' r (mkDate (year d) v (day d)))
  | DSpaces :: ds' => first_of (spaces_parses a) (fun r => run ds' r d)
  | DLit c :: ds' =>
      match a with
      | c' :: r =>
          if Ascii.eqb (PyStr.lower_char c') (PyStr.lower_char c)
          then run ds' r d else None
      | [] => None
      end
  end.

Definition is_leap (y : Z) : bool :=
  ((y mod 4 =? 0) && (negb (y mod 100 =? 0) || (y mod 400 =? 0)))%Z.

Definition days_in_month (y m : Z) : Z :=
  (if m =? 2 then (if is_leap y then 29 else 28)
   else if (m =? 4) || (m =? 6) || (m =? 9) || (m =? 11) then 30
   else 31)%Z.

(** [datetime(year, month, day)]: out of range is a [ValueError]. *)
Definition make (y m d : Z) : option datetime :=
  if ((1 <=? y) && (y <=? 9999) && (1 <=? m) && (m <=? 12) && (1 <=? d)
      && (d <=? days_in_month y m))%Z
  then Some (mkDate y m d) else None.

(** [datetime.strptime(date_str, fmt)]; [None] is its [ValueError]. *)
Definition strptime (date_str fmt : string) : option datetime :=
  ds ← compile (list_ascii_of_string fmt);
  match run ds (list_ascii_of_string date_str) (mkDate 1900 1 1) with
  | Some (d, []) => make (year d) (month d) (day d)
  | _ => None
  end.

End PyDatetime.

(** ** job_matcher/scoring/experience_scorer.py *)

Module ExperienceScorer.
Import Regex Regex.Notations PyDatetime.

(** A work-experience dict as the matcher builds it: the keys
    [start_date], [end_date] and [is_current]. *)
Record entry := mkEntry {
  start_date : option string;
  end_date : option string;
  is_current : bool
}.

(** [(?:years?|yrs?)] *)
Definition years_word : re :=
  Alt (Lit "year" ⋅ Opt (Lit "s")) (Lit "yr" ⋅ Opt (Lit "s")).

(** The [patterns] of [estimate_years_from_text]. *)
Definition patterns : list re :=
  [ Group \d+ ⋅ Opt (Lit "+") ⋅ \s* ⋅ years_word ⋅ Opt (\s+ ⋅ Lit "of") ⋅ \s*
      ⋅ Alt (Lit "experience") (Lit "exp");
    Alt (Lit "over") (Alt (Lit "more than") (Lit ">" ⋅ \s*)) ⋅ \s* ⋅ Group \d+
      ⋅ \s* ⋅ years_word;
    Group \d+ ⋅ Lit "+" ⋅ \s* ⋅ years_word;
    Alt (Lit "experience") (Lit "exp") ⋅ Plus [IChr ":"; ISpace] ⋅ Group \d+
      ⋅ \s* ⋅ years_word ].

(** [int(s)] / [float(s)] of a string of decimal digits. *)
Fixpoint digits_value (acc : Z) (s : string) : option Z :=
  match s with
  | EmptyString => Some acc
  | String c r =>
      if isdigit c
      then digits_value (10 * acc + (Z.of_N (N_of_ascii c) - 48)) r
      else None
  end.

Definition parse_number (s : string) : option Z :=
  match s with
  | EmptyString => None
  | _ => digits_value 0 s
  end.

(** The loop of [estimate_years_from_text]: a pattern whose group does
    not convert is skipped. *)
Fixpoint first_years (ps : list re) (text_lower : string) : option Q :=
  match ps with
  | [] => None
  | pattern :: rest =>
      match search pattern text_lower with
      | Some m =>
          match group1 m ≫= parse_number with
          | Some n => Some (inject_Z n)
          | None => first_years rest text_lower
          end
      | None => first_years rest text_lower
      end
  end.

Definition estimate_years_from_text (text : string) : option Q :=
  if negb (PyStr.truthy text) then None
  else first_years patterns (PyStr.lower text).

Definition estimate_from_positions (num_positions : Z) : Q :=
  if (num_positions <=? 0)%Z then 0
  else (inject_Z num_positions * (5 # 2))%Q.

(** [\b(19|20)\d{2}\b] *)
Definition year_pattern : re :=
  \b ⋅ Group (Alt (Lit "19") (Lit "20")) ⋅ \d ⋅ \d ⋅ \b.

Definition formats : list string :=
  ["%Y-%m-%d"; "%Y-%m"; "%Y"; "%m/%Y"; "%m-%Y"; "%B %Y"; "%b %Y"].

Section WithClock.
(** [datetime.now()], read once per call in the model. *)
Variable now : datetime.
(** [datetime.strptime(date_str, fmt)]; [None] is its [ValueError]. *)
Variable strptime : string -> string -> option datetime.

Fixpoint first_format (fmts : list string) (date_str : string)
  : option datetime :=
  match fmts with
  | [] => None
  | fmt :: rest =>
      match strptime date_str fmt with
      | Some d => Some d
      | None => first_format rest date_str
      end
  end.

Definition _parse_date (date_str : option string) : option datetime :=
  match date_str with
  | None => None
  | Some s =>
      if negb (PyStr.truthy s) then None
      else
        let date_str := PyStr.strip s in
        if bool_decide (PyStr.lower date_str ∈ ["present"; "current"; "now"])
        then Some now
        else
          match first_format formats date_str with
          | Some d => Some d
          | None =>
              match search year_pattern date_str with
              | Some year_match =>
                  match parse_number (group0 year_match) with
                  | Some y => PyDatetime.make y 1 1
                  | None => None
                  end
              | None => None
              end
          end
  end.

Definition _calculate_entry_duration (e : entry) : Z :=
  let start := _parse_date (start_date e) in
  let end_ := _parse_date (end_date e) in
  match start with
  | None => 30
  | Some start =>
      let finish (end_ : datetime) : Z :=
        let months :=
          ((year end_ - year start) * 12 + (month end_ - month start))%Z in
        Z.max 0 months in
      match end_ with
      | Some end_ => finish end_
      | None => if is_current e then finish now else 24
      end
  end.

Definition estimate_years_from_entries (entries : list entry) : Q :=
  match entries with
  | [] => 0
  | _ =>
      let total_months :=
        foldl (fun total e => (total + _calculate_entry_duration e)%Z)
              0%Z entries in
      (inject_Z total_months / 12)%Q
  end.

(** The last three branches of [score], on the years found. *)
Definition ratio (years : Q) (job_min_years : Z) : Q :=
  if PyNum.geb years (inject_Z job_min_years) then 1
  else if PyNum.leb years 0 then 0
  else (years / inject_Z job_min_years)%Q.

Definition score (resume_years : option Q) (job_min_years : Z)
    (experience_entries : option (list entry)) : Q :=
  if (job_min_years <=? 0)%Z then 1
  else
    match resume_years, experience_entries with
    | Some years, _ => ratio years job_min_years
    | None, Some (e :: es) =>
        ratio (estimate_years_from_entries (e :: es)) job_min_years
    | None, _ => 1 # 2
    end.

End WithClock.

End ExperienceScorer.

(** ** resume_parser/models/resume.py

    [ContactInfo.location] and [ParsedSection.name] are written
    [contact_location] and [section_name], since one module cannot hold two
    fields of one name.  The matcher reads a resume through [getattr] with
    defaults; a [Resume] record always has the three attributes it reads. *)

Module ResumeModel.

Record ContactInfo := mkContact {
  email : option string;
  phone : option string;
  contact_location : option string;
  linkedin : option string;
  name : option string
}.

Record WorkExperience := mkWork {
  company : option string;
  role : option string;
  start_date : option string;
  end_date : option string;
  description : option string;
  location : option string;
  is_current : bool
}.

Record Education := mkEducation {
  institution : option string;
  degree : option string;
  field_of_study : option string;
  graduation_date : option string;
  gpa : option string;
  honors : option string
}.

Record ParsedSection := mkSection {
  section_name : string;
  content : string;
  start_index : Z;
  end_index : Z
}.

Record Resume := mkResume {
  raw_text : string;
  contact : ContactInfo;
  skills : list string;
  experience : list WorkExperience;
  education : list Education;
  sections : gmap string ParsedSection;
  file_path : option string;
  file_type : option string;
  parse_errors : list string
}.

(** [ContactInfo()] *)
Definition empty_contact : ContactInfo := mkContact None None None None None.

(** [Resume(raw_text=text, file_type=source)] *)
Definition new (text : string) (source : string) : Resume :=
  {| raw_text := text; contact := empty_contact; skills := [];
     experience := []; education := []; sections := ∅;
     file_path := None; file_type := Some source; parse_errors := [] |}.

End ResumeModel.

(** ** job_matcher/models/job.py *)

Module Job.

Record t := mk {
  title : string;
  company : string;
  description : string;
  job_id : string;
  clearance_level : Clearance.ClearanceLevel;
  required_skills : list string;
  preferred_skills : list string;
  min_experience_years : Z;
  location : option string;
  salary_min : option Z;
  salary_max : option Z;
  is_remote : bool;
  department : option string;
  employment_type : string
}.

(** [Job(title, company, description, job_id=..., clearance_level=...,
    required_skills=..., preferred_skills=..., min_experience_years=...)],
    the other fields at their defaults. *)
Definition make (title company description job_id : string)
    (clearance_level : Clearance.ClearanceLevel)
    (required_skills preferred_skills : list string)
    (min_experience_years : Z) : t :=
  mk title company description job_id clearance_level required_skills
     preferred_skills min_experience_years None None None false None
     "Full-time".

(** [list(dict.fromkeys(l))]: the first occurrence of each skill, in order. *)
Fixpoint fromkeys (seen : gset string) (l : list string) : list string :=
  match l with
  | [] => []
  | x :: rest =>
      if bool_decide (x ∈ seen) then fromkeys seen rest
      else x :: fromkeys ({[x]} ∪ seen) rest
  end.

Definition get_all_skills (self : t) : list string :=
  let all_skills := (required_skills self ++ preferred_skills self)%list in
  fromkeys ∅ all_skills.

Definition get_clearance_string (self : t) : string :=
  match clearance_level self with
  | Clearance.NONE => "None Required"
  | Clearance.PUBLIC_TRUST => "Public Trust"
  | Clearance.SECRET => "Secret"
  | Clearance.TOP_SECRET => "Top Secret"
  | Clearance.TS_SCI => "TS/SCI"
  end.

(** Truthiness of an optional [int]: [None] and 0 are false. *)
Definition amount (o : option Z) : option Z :=
  match o with
  | Some n => if (n =? 0)%Z then None else Some n
  | None => None
  end.

Definition get_salary_range_string (self : t) : option string :=
  match amount (salary_min self), amount (salary_max self) with
  | Some lo, Some hi =>
      Some ("$" +:+ PyNum.format_thousands lo +:+ " - $"
            +:+ PyNum.format_thousands hi)
  | Some lo, None => Some ("$" +:+ PyNum.format_thousands lo +:+ "+")
  | None, Some hi => Some ("Up to $" +:+ PyNum.format_thousands hi)
  | None, None => None
  end.

(** The value under ["clearance_level"] in a job dict: the member's name,
    or a member itself, which [from_dict] passes on. *)
Inductive clearance_value :=
| ByName (s : string)
| ByLevel (level : Clearance.ClearanceLevel).

(** A job dict whose values have the types of the fields: a key that is
    absent is [None]; a key that may hold [None] holds an option. *)
Record dict := mkDict {
  d_job_id : option string;
  d_title : option string;
  d_company : option string;
  d_description : option string;
  d_clearance_level : option clearance_value;
  d_required_skills : option (list string);
  d_preferred_skills : option (list string);
  d_min_experience_years : option Z;
  d_location : option (option string);
  d_salary_min : option (option Z);
  d_salary_max : option (option Z);
  d_is_remote : option bool;
  d_department : option (option string);
  d_employment_type : option string
}.

Definition to_dict (self : t) : dict :=
  {| d_job_id := Some (job_id self);
     d_title := Some (title self);
     d_company := Some (company self);
     d_description := Some (description self);
     d_clearance_level := Some (ByName (Clearance.name (clearance_level self)));
     d_required_skills := Some (required_skills self);
     d_preferred_skills := Some (preferred_skills self);
     d_min_experience_years := Some (min_experience_years self);
     d_location := Some (location self);
     d_salary_min := Some (salary_min self);
     d_salary_max := Some (salary_max self);
     d_is_remote := Some (is_remote self);
     d_department := Some (department self);
     d_employment_type := Some (employment_type self) |}.

(** [from_dict]; [fresh_id] is the [str(uuid.uuid4())[:8]] drawn for a dict
    without ["job_id"]; [None] is the [KeyError] of a clearance name that
    is no member. *)
Definition from_dict (fresh_id : string) (data : dict) : option t :=
  clearance ←
    match default (ByName "NONE") (d_clearance_level data) with
    | ByName s => Clearance.of_name (PyStr.upper s)
    | ByLevel level => Some level
    end;
  Some {| job_id := default fresh_id (d_job_id data);
          title := default "" (d_title data);
          company := default "" (d_company data);
          description := default "" (d_description data);
          clearance_level := clearance;
          required_skills := default [] (d_required_skills data);
          preferred_skills := default [] (d_preferred_skills data);
          min_experience_years := default 0%Z (d_min_experience_years data);
          location := default None (d_location data);
          salary_min := default None (d_salary_min data);
          salary_max := default None (d_salary_max data);
          is_remote := default false (d_is_remote data);
          department := default None (d_department data);
          employment_type := default "Full-time" (d_employment_type data) |}.

End Job.

(** ** job_matcher/scoring/semantic_scorer.py and job_matcher/matcher.py *)

Module JobMatcher.
Import SkillSynonyms MatchResultModel Clearance ResumeModel.

(** The matcher object: its three weights (the scorers it owns carry no
    other state than the default skill weights). *)
Record t := mk {
  semantic_weight : Q;
  skill_weight : Q;
  experience_weight : Q
}.

(** [__init__]: [None] is the [ValueError] for weights that do not sum
    to 1.0 within 0.01. *)
Definition make (semantic_weight skill_weight experience_weight : Q)
  : option t :=
  let total := (semantic_weight + skill_weight + experience_weight)%Q in
  if negb (PyNum.ltb (Qabs (total - 1)) (1 # 100)) then None
  else Some (mk semantic_weight skill_weight experience_weight).

(** [JobMatcher()] *)
Definition init : t := mk (4 # 10) (4 # 10) (2 # 10).

(** The order of a list sorted by score, highest first. *)
Definition by_score_desc (a b : MatchResult.t) : Prop :=
  (MatchResult.score b <= MatchResult.score a)%Q.

Section WithServices.
(** The embedding service: vectors, [encode] and [cosine_similarity];
    [encode] is a function of the text, the cache of the service changing
    the cost of a call and not its result. *)
Variable embedding : Type.
Variable encode : string -> embedding.
Variable cosine_similarity : embedding -> embedding -> Q.
(** The clock and the date parser of the experience scorer. *)
Variable now : PyDatetime.datetime.
Variable strptime : string -> string -> option PyDatetime.datetime.

(** [SemanticScorer.score] *)
Definition semantic_score (resume_text job_text : string)
    (resume_embedding job_embedding : option embedding) : Q :=
  if negb (PyStr.truthy resume_text) || negb (PyStr.truthy job_text) then 0
  else
    let resume_embedding :=
      match resume_embedding with
      | None => encode resume_text
      | Some e => e
      end in
    let job_embedding :=
      match job_embedding with
      | None => encode job_text
      | Some e => e
      end in
    let similarity := cosine_similarity resume_embedding job_embedding in
    Qmax 0 (Qmin 1 similarity).

Definition _estimate_experience_years (resume : Resume) : option Q :=
  let resume_text := raw_text resume in
  match (if PyStr.truthy resume_text
         then ExperienceScorer.estimate_years_from_text resume_text
         else None) with
  | Some years => Some years
  | None =>
      match experience resume with
      | [] => None
      | exps =>
          Some (ExperienceScorer.estimate_from_positions
                  (Z.of_nat (length exps)))
      end
  end.

(** The loop of [_get_upskilling_recommendations]. *)
Definition recommendation (skill : string) : string :=
  let skill_lower := PyStr.lower skill in
  let canonical := get_canonical_skill skill in
  match UPSKILLING_RECOMMENDATIONS !! skill_lower with
  | Some rec => "Learn " +:+ canonical +:+ ": " +:+ rec_learning_path rec
  | None => "Develop " +:+ canonical +:+ " skills"
  end.

Definition _get_upskilling_recommendations (missing_skills : list string)
    (max_recommendations : nat) : list string :=
  recommendation <$> take max_recommendations missing_skills.

(** The dict built for each experience entry of the resume. *)
Definition entry_of (exp : WorkExperience) : ExperienceScorer.entry :=
  ExperienceScorer.mkEntry (start_date exp) (end_date exp) (is_current exp).

(** [match], written [match_] since [match] is a keyword. *)
Definition match_ (self : t) (resume : Resume) (job : Job.t)
    (resume_embedding job_embedding : option embedding) : MatchResult.t :=
  let resume_text := raw_text resume in
  let resume_skills := skills resume in
  let resume_experience := experience resume in
  let resume_clearance := detect_clearance_from_text resume_text in
  if negb (meets_clearance_requirement resume_clearance
                                       (Job.clearance_level job))
  then
    {| MatchResult.score := 0;
       MatchResult.semantic_score := 0;
       MatchResult.skill_score := 0;
       MatchResult.experience_score := 0;
       MatchResult.matched_skills := [];
       MatchResult.missing_required_skills := [];
       MatchResult.missing_preferred_skills := [];
       MatchResult.skill_gaps := [];
       MatchResult.upskilling_recommendations := [];
       MatchResult.clearance_met := false;
       MatchResult.disqualified := true;
       MatchResult.disqualification_reason :=
         Some ("Clearance requirement not met. "
               +:+ "Job requires "
               +:+ clearance_to_string (Job.clearance_level job) +:+ ", "
               +:+ "resume shows "
               +:+ clearance_to_string resume_clearance +:+ ".");
       MatchResult.job_id := Some (Job.job_id job);
       MatchResult.job_title := Some (Job.title job);
       MatchResult.job_company := Some (Job.company job);
       MatchResult.explanation := "" |}
  else
    let semantic_score :=
      semantic_score resume_text (Job.description job)
                     resume_embedding job_embedding in
    let skill_result :=
      SkillScorer.score SkillScorer.init resume_skills
                        (Job.required_skills job)
                        (Job.preferred_skills job) in
    let resume_years := _estimate_experience_years resume in
    let experience_score :=
      ExperienceScorer.score now strptime resume_years
        (Job.min_experience_years job)
        (match resume_experience with
         | [] => None
         | exps => Some (entry_of <$> exps)
         end) in
    let ffx_score :=
      ((semantic_weight self * semantic_score
        + skill_weight self * SkillMatchResult.score skill_result
        + experience_weight self * experience_score) * 100)%Q in
    let upskilling :=
      _get_upskilling_recommendations
        (SkillMatchResult.missing_required skill_result
         ++ SkillMatchResult.missing_preferred skill_result) 5 in
    let result :=
      {| MatchResult.score := PyNum.round ffx_score 1;
         MatchResult.semantic_score := PyNum.round semantic_score 4;
         MatchResult.skill_score :=
           PyNum.round (SkillMatchResult.score skill_result) 4;
         MatchResult.experience_score := PyNum.round experience_score 4;
         MatchResult.matched_skills :=
           SkillMatchResult.matched_skills skill_result;
         MatchResult.missing_required_skills :=
           SkillMatchResult.missing_required skill_result;
         MatchResult.missing_preferred_skills :=
           SkillMatchResult.missing_preferred skill_result;
         MatchResult.skill_gaps := SkillMatchResult.gaps skill_result;
         MatchResult.upskilling_recommendations := upskilling;
         MatchResult.clearance_met := true;
         MatchResult.disqualified := false;
         MatchResult.disqualification_reason := None;
         MatchResult.job_id := Some (Job.job_id job);
         MatchResult.job_title := Some (Job.title job);
         MatchResult.job_company := Some (Job.company job);
         MatchResult.explanation := "" |} in
    MatchResult.set_explanation result
      (MatchResult.generate_explanation result).

(** [results.sort(key=lambda r: r.score, reverse=True)]: the sort is
    stable, so results of equal score keep their relative order. *)
Fixpoint insert_desc (r : MatchResult.t) (l : list MatchResult.t)
  : list MatchResult.t :=
  match l with
  | [] => [r]
  | r' :: rest =>
      if PyNum.geb (MatchResult.score r) (MatchResult.score r')
      then r :: l
      else r' :: insert_desc r rest
  end.

Definition sort_by_score_desc (l : list MatchResult.t)
  : list MatchResult.t :=
  foldr insert_desc [] l.

(** The resume embedding that [match_batch] computes once when the caller
    gave none and the resume has text. *)
Definition batch_embedding (resume : Resume)
    (resume_embedding : option embedding) : option embedding :=
  match resume_embedding with
  | Some e => Some e
  | None =>
      let resume_text := raw_text resume in
      if PyStr.truthy resume_text then Some (encode resume_text) else None
  end.

(** [match_batch]; [sort_by_score = None] is a call that leaves the
    keyword out, which the signature resolves to its default [True]. *)
Definition match_batch (self : t) (resume : Resume) (jobs : list Job.t)
    (resume_embedding : option embedding) (sort_by_score : option bool)
  : list MatchResult.t :=
  let sort_by_score := default true sort_by_score in
  match jobs with
  | [] => []
  | _ =>
      let resume_embedding := batch_embedding resume resume_embedding in
      let results :=
        (fun job => match_ self resume job resume_embedding None) <$> jobs in
      if sort_by_score then sort_by_score_desc results else results
  end.

Definition get_top_matches (self : t) (resume : Resume) (jobs : list Job.t)
    (top_k : nat) (min_score : Q) (require_clearance : bool)
  : list MatchResult.t :=
  let all_results := match_batch self resume jobs None (Some true) in
  let filtered :=
    filter (fun result =>
              negb (require_clearance && MatchResult.disqualified result)
              && PyNum.geb (MatchResult.score result) min_score)
           all_results in
  take top_k filtered.

End WithServices.

Section SemanticBatch.
Variable embedding : Type.
Variable encode : string -> embedding.
(** [encode_batch] of the embedding service. *)
Variable encode_batch : list string -> list embedding.
Variable cosine_similarity : embedding -> embedding -> Q.

(** [SemanticScorer.score_batch] *)
Definition score_batch (resume_text : string) (job_texts : list string)
    (resume_embedding : option embedding) : list Q :=
  if negb (PyStr.truthy resume_text)
     || match job_texts with [] => true | _ => false end
  then []
  else
    let resume_embedding :=
      match resume_embedding with
      | None => encode resume_text
      | Some e => e
      end in
    let job_embeddings := encode_batch job_texts in
    (fun job_emb =>
       Qmax 0 (Qmin 1 (cosine_similarity resume_embedding job_emb)))
      <$> job_embeddings.

End SemanticBatch.

(** [match_resume_to_jobs]: a default matcher and its top matches. *)
Definition match_resume_to_jobs (embedding : Type)
    (encode : string -> embedding)
    (cosine_similarity : embedding -> embedding -> Q)
    (now : PyDatetime.datetime)
    (strptime : string -> string -> option PyDatetime.datetime)
    (resume : Resume) (jobs : list Job.t) (top_k : nat)
  : list MatchResult.t :=
  get_top_matches embedding encode cosine_similarity now strptime
                  init resume jobs top_k 0 true.

End JobMatcher.

(** ** resume_parser/parser.py: the orchestration of the extractors *)

Module ResumeParser.
Import ResumeModel.

(** The outcome of a Python call: a value, or a raised [Exception],
    kept as the text [str(e)] that the handlers format. *)
Inductive outcome (A : Type) :=
| Returns (v : A)
| Raises (e : string).
Arguments Returns {A} v.
Arguments Raises {A} e.

(** Sequencing of statements: a raised exception leaves the block. *)
#[export] Instance outcome_bind : MBind outcome :=
  fun A B (f : A -> outcome B) (x : outcome A) =>
    match x with
    | Returns v => f v
    | Raises e => Raises e
    end.

(** [try: body  except Exception as e: handler(e)] *)
Definition try_except {A : Type} (body : outcome A) (handler : string -> outcome A)
  : outcome A :=
  match body with
  | Returns v => Returns v
  | Raises e => handler e
  end.

(** Attribute assignments on the resume object. *)
Definition set_sections (r : Resume) (v : gmap string ParsedSection) : Resume :=
  mkResume (raw_text r) (contact r) (skills r) (experience r) (education r)
           v (file_path r) (file_type r) (parse_errors r).
Definition set_contact (r : Resume) (v : ContactInfo) : Resume :=
  mkResume (raw_text r) v (skills r) (experience r) (education r)
           (sections r) (file_path r) (file_type r) (parse_errors r).
Definition set_skills (r : Resume) (v : list string) : Resume :=
  mkResume (raw_text r) (contact r) v (experience r) (education r)
           (sections r) (file_path r) (file_type r) (parse_errors r).
Definition set_experience (r : Resume) (v : list WorkExperience) : Resume :=
  mkResume (raw_text r) (contact r) (skills r) v (education r)
           (sections r) (file_path r) (file_type r) (parse_errors r).
Definition set_education (r : Resume) (v : list Education) : Resume :=
  mkResume (raw_text r) (contact r) (skills r) (experience r) v
           (sections r) (file_path r) (file_type r) (parse_errors r).
(** [resume.parse_errors.append(error_msg)] *)
Definition append_error (r : Resume) (error_msg : string) : Resume :=
  mkResume (raw_text r) (contact r) (skills r) (experience r) (education r)
           (sections r) (file_path r) (file_type r)
           (parse_errors r ++ [error_msg]).

(** [resume.sections.get(k, {}).content if k in resume.sections else None] *)
Definition section_content (r : Resume) (k : string) : option string :=
  content <$> (sections r !! k).

(** What a guarded extraction leaves in its field, and in the error list. *)
Definition value_or {A : Type} (o : outcome A) (dflt : A) : A :=
  match o with
  | Returns v => v
  | Raises _ => dflt
  end.

Definition error_of {A : Type} (stage : string) (o : outcome A) : list string :=
  match o with
  | Returns _ => []
  | Raises e => [stage +:+ " extraction failed: " +:+ e]
  end.

Section WithExtractors.
(** The [extract] methods of the five extractors, each free to raise. *)
Variable section_extract : string -> outcome (gmap string ParsedSection).
Variable contact_extract : string -> option string -> outcome ContactInfo.
Variable skill_extract : string -> option string -> outcome (list string).
Variable experience_extract :
  string -> option string -> outcome (list WorkExperience).
Variable education_extract :
  string -> option string -> outcome (list Education).

Definition _parse_content (resume : Resume) : outcome Resume :=
  let text := raw_text resume in
  resume ←
    try_except
      (v ← section_extract text; Returns (set_sections resume v))
      (fun e => Returns (append_error resume
                           ("Section extraction failed: " +:+ e)));
  let contact_section := section_content resume "contact" in
  let skills_section := section_content resume "skills" in
  let experience_section := section_content resume "experience" in
  let education_section := section_content resume "education" in
  resume ←
    try_except
      (v ← contact_extract text contact_section;
       Returns (set_contact resume v))
      (fun e => Returns (append_error resume
                           ("Contact extraction failed: " +:+ e)));
  resume ←
    try_except
      (v ← skill_extract text skills_section;
       Returns (set_skills resume v))
      (fun e => Returns (append_error resume
                           ("Skill extraction failed: " +:+ e)));
  resume ←
    try_except
      (v ← experience_extract text experience_section;
       Returns (set_experience resume v))
      (fun e => Returns (append_error resume
                           ("Experience extraction failed: " +:+ e)));
  resume ←
    try_except
      (v ← education_extract text education_section;
       Returns (set_education resume v))
      (fun e => Returns (append_error resume
                           ("Education extraction failed: " +:+ e)));
  Returns resume.

(** [parse_text(text, source="text")] *)
Definition parse_text (text : string) (source : option string)
  : outcome Resume :=
  let resume := ResumeModel.new text (default "text" source) in
  _parse_content resume.

End WithExtractors.





Section WithFiles.
(** The file system and [pathlib]: whether the path exists, its suffix
    and its text form. *)
Variable path_exists : string -> bool.
Variable path_suffix : string -> string.
Variable path_str : string -> string.
(** The two decoders and the five extractors. *)
Variable pdf_extract : string -> outcome string.
Variable docx_extract : string -> outcome string.
Variable section_extract : string -> outcome (gmap string ParsedSection).
Variable contact_extract : string -> option string -> outcome ContactInfo.
Variable skill_extract : string -> option string -> outcome (list string).
Variable experience_extract :
  string -> option string -> outcome (list WorkExperience).
Variable education_extract :
  string -> option string -> outcome (list Education).


End WithFiles.

End ResumeParser.

(** ** The skill score as the specification words it

    The second definition of the score, for comparison with
    [SkillScorer.score]: the skills that are not the empty string are
    normalized and listed without repeats; a job skill is matched when it is
    among the resume's; the score is
    (2 x matched required + 1 x matched preferred)
    / (2 x required + 1 x preferred), at most 1, and the neutral 1/2 when the
    job has no skill at all. *)

Module SkillScoreSpec.
Import SkillSynonyms.

Definition skill_keys (skills : list string) : list string :=
  remove_dups (normalize_skill <$> filter (fun s => s <> "") skills).

Definition matched (resume_keys job_keys : list string) : list string :=
  filter (fun k => k ∈ resume_keys) job_keys.

Definition weighted (required preferred : list string) : Q :=
  (2 * PyNum.of_nat (length required) + 1 * PyNum.of_nat (length preferred))%Q.

Definition score (resume_skills required_skills preferred_skills : list string)
  : Q :=
  let resume := skill_keys resume_skills in
  let required := skill_keys required_skills in
  let preferred := skill_keys preferred_skills in
  match required, preferred with
  | [], [] => 1 # 2
  | _, _ =>
      Qmin 1 (weighted (matched resume required) (matched resume preferred)
              / weighted required preferred)
  end.

(** The arithmetic of the default scorer on the sizes of its sets: the
    points (2 per required skill, 1 per preferred one) and the score before
    it is capped. *)
Definition points (r p : nat) : Q :=
  (PyNum.of_nat r * 2 + PyNum.of_nat p * 1)%Q.

Definition raw_score (mr mp r p : nat) : Q :=
  if PyNum.eqb (points r p) 0 then 1 # 2 else (points mr mp / points r p)%Q.

End SkillScoreSpec.

(** ** Example data *)

Module Examples.
Import ResumeModel.

(** The clock of the examples. *)
Definition now : PyDatetime.datetime := PyDatetime.mkDate 2026 11 3.

(** An embedding service for jobs without description, whose semantic
    score does not depend on it. *)
Definition encode (_ : string) : unit := tt.
Definition cosine_similarity (_ _ : unit) : Q := 0.

(** A resume without a years-of-experience phrase and with one dated
    position of five years. *)
Definition resume_history : Resume :=
  {| raw_text := "Backend engineer at Acme";
     contact := empty_contact;
     skills := ["Python"];
     experience :=
       [mkWork (Some "Acme") (Some "Engineer") (Some "2015-01")
               (Some "2020-01") None None false];
     education := []; sections := ∅; file_path := None;
     file_type := Some "text"; parse_errors := [] |}.

Definition job_ten_years : Job.t :=
  Job.make "Staff Engineer" "Initech" "" "job-10" Clearance.NONE ["Python"] [] 10.

Definition job_cleared : Job.t :=
  Job.make "Cleared Developer" "Defense Corp" "" "job-ts" Clearance.TS_SCI
         ["Python"] [] 0.

Definition job_open : Job.t :=
  Job.make "Developer" "Corp" "" "job-open" Clearance.NONE [] [] 0.

(** An embedding service that finds every two texts alike, and a job
    whose only demand the resume meets. *)
Definition cosine_alike (_ _ : unit) : Q := 1.

Definition job_python : Job.t :=
  Job.make "Developer" "Corp" "Python developer" "job-py" Clearance.NONE
         ["Python"] [] 0.

Definition match_ : JobMatcher.t -> Resume -> Job.t -> option unit
                    -> option unit -> MatchResult.t :=
  JobMatcher.match_ unit encode cosine_similarity now PyDatetime.strptime.

Definition match_batch : JobMatcher.t -> Resume -> list Job.t -> option unit
                         -> option bool -> list MatchResult.t :=
  JobMatcher.match_batch unit encode cosine_similarity now PyDatetime.strptime.

End Examples.

(** ** Patterns that read a digit

    A syntactic test used to reason on the patterns of the scorers: a pattern
    for which it holds has a decimal digit in every text it matches. *)

Module RegexProps.
Import Regex.




End RegexProps.

(** * Properties *)

(** ** Lower-casing and stripping *)

Section StringFacts.
Import PyStr.

Lemma lower_char_idem c : lower_char (lower_char c) = lower_char c.
Proof. destruct c as [[] [] [] [] [] [] [] []]; reflexivity. Qed.

Lemma isspace_lower_char c : isspace (lower_char c) = isspace c.
Proof. destruct c as [[] [] [] [] [] [] [] []]; reflexivity. Qed.

Lemma lower_idem s : lower (lower s) = lower s.
Proof. induction s as [|c s IH]; simpl; [done|]. by rewrite lower_char_idem, IH. Qed.

Lemma lower_lstrip s : lower (lstrip s) = lstrip (lower s).
Proof.
  induction s as [|c s IH]; simpl; [done|].
  rewrite isspace_lower_char. by destruct (isspace c).
Qed.

Lemma lower_rstrip s : lower (rstrip s) = rstrip (lower s).
Proof.
  induction s as [|c s IH]; simpl; [done|].
  rewrite <- IH, isspace_lower_char.
  destruct (rstrip s); simpl; [by destruct (isspace c)|done].
Qed.

Lemma lower_strip s : lower (strip s) = strip (lower s).
Proof. unfold strip. by rewrite lower_rstrip, lower_lstrip. Qed.

Lemma rstrip_idem s : rstrip (rstrip s) = rstrip s.
Proof.
  induction s as [|c s IH]; simpl; [done|].
  destruct (rstrip s) as [|c' r'] eqn:E.
  - destruct (isspace c) eqn:Ec; simpl; [done|]. by rewrite Ec.
  - change (rstrip (String c (String c' r')) = String c (String c' r')).
    cbn [rstrip] in *. by rewrite IH.
Qed.

Lemma lstrip_starts_clean s : starts_clean (lstrip s).
Proof.
  induction s as [|c s IH]; simpl; [done|].
  destruct (isspace c) eqn:Ec; [done|]. exact Ec.
Qed.

Lemma lstrip_clean s : starts_clean s -> lstrip s = s.
Proof. destruct s as [|c s]; simpl; [done|]. by intros ->. Qed.

Lemma rstrip_starts_clean s : starts_clean s -> starts_clean (rstrip s).
Proof.
  destruct s as [|c s]; simpl; [done|]. intros Hc.
  destruct (rstrip s); simpl; [by rewrite Hc|done].
Qed.

Lemma strip_idem s : strip (strip s) = strip s.
Proof.
  unfold strip.
  rewrite (lstrip_clean (rstrip (lstrip s))), rstrip_idem; [done|].
  apply rstrip_starts_clean, lstrip_starts_clean.
Qed.

(** What [normalize_skill] looks up is a fixed point of [lower] and [strip]. *)
Lemma strip_lower_fixed s :
  strip (lower (strip (lower s))) = strip (lower s).
Proof. by rewrite <- lower_strip, strip_idem, lower_strip, lower_idem. Qed.

End StringFacts.

(** ** Synonym normalization *)

Section NormalizeFacts.
Import SkillSynonyms.

(** Every canonical form that the reverse index can return normalizes to
    itself: no canonical key is shadowed by a synonym of another entry. *)
Lemma reverse_lookup_values_fixed :
  map_Forall (fun _ canonical => normalize_skill canonical = canonical)
             _REVERSE_LOOKUP.
Proof. compute_done. Qed.

Lemma normalize_skill_of_key k canonical :
  _REVERSE_LOOKUP !! k = Some canonical ->
  normalize_skill canonical = canonical.
Proof. intros H. exact (reverse_lookup_values_fixed k canonical H). Qed.

Lemma normalize_skill_unknown x :
  _REVERSE_LOOKUP !! PyStr.strip (PyStr.lower x) = None ->
  normalize_skill x = PyStr.strip (PyStr.lower x).
Proof.
  intros H. unfold normalize_skill. rewrite H. by destruct x.
Qed.

End NormalizeFacts.

(** C1.  Synonym normalization is idempotent, and the three spellings of
    Kubernetes, "K8s", "kubernetes" and "kube", all normalize to the
    canonical form "kubernetes". *)
Theorem normalize_skill_idempotent :
  (forall x : string,
      SkillSynonyms.normalize_skill (SkillSynonyms.normalize_skill x)
      = SkillSynonyms.normalize_skill x)
  /\ SkillSynonyms.normalize_skill "K8s" = "kubernetes"
  /\ SkillSynonyms.normalize_skill "kubernetes" = "kubernetes"
  /\ SkillSynonyms.normalize_skill "kube" = "kubernetes".
Proof.
  split; [|by vm_compute].
  intros x. unfold SkillSynonyms.normalize_skill at 2 3.
  destruct (PyStr.truthy x) eqn:Hx; cbn [negb]; [|reflexivity].
  destruct (SkillSynonyms._REVERSE_LOOKUP !! PyStr.strip (PyStr.lower x))
    as [canonical|] eqn:Hl.
  - by eapply normalize_skill_of_key.
  - rewrite normalize_skill_unknown; rewrite strip_lower_fixed; done.
Qed.

(** ** The skill scorer *)

Section SkillScorerFacts.
Import SkillSynonyms SkillScorer.

Lemma truthy_nonempty (s : string) : PyStr.truthy s <-> s <> "".
Proof. destruct s; simpl; split; try done. Qed.

Lemma normalized_set_keys l :
  normalized_set l = list_to_set (SkillScoreSpec.skill_keys l).
Proof.
  unfold normalized_set, SkillScoreSpec.skill_keys.
  rewrite (list_filter_iff _ (fun s => s <> "")) by apply truthy_nonempty.
  apply set_eq. intros x.
  by rewrite !elem_of_list_to_set, elem_of_remove_dups.
Qed.

Lemma elem_of_normalized_set x l :
  x ∈ normalized_set l <-> exists s, x = normalize_skill s /\ s <> "" /\ s ∈ l.
Proof.
  unfold normalized_set. rewrite elem_of_list_to_set, list_elem_of_fmap.
  split; intros (s & -> & Hs); exists s; split; try done.
  - apply list_elem_of_filter in Hs as [Ht Hs]. by apply truthy_nonempty in Ht.
  - apply list_elem_of_filter. destruct Hs as [Hne Hs]. by rewrite truthy_nonempty.
Qed.

Lemma size_normalized_set l :
  size (normalized_set l) = length (SkillScoreSpec.skill_keys l).
Proof.
  rewrite normalized_set_keys. apply size_list_to_set, NoDup_remove_dups.
Qed.

Lemma size_matched a b :
  size (normalized_set a ∩ normalized_set b)
  = length (SkillScoreSpec.matched (SkillScoreSpec.skill_keys a)
                                   (SkillScoreSpec.skill_keys b)).
Proof.
  rewrite <- (size_list_to_set (C:=gset string)).
  - f_equal. rewrite !normalized_set_keys. apply set_eq. intros x.
    unfold SkillScoreSpec.matched.
    rewrite elem_of_intersection, !elem_of_list_to_set, list_elem_of_filter.
    done.
  - apply NoDup_filter, NoDup_remove_dups.
Qed.

Lemma normalized_set_mono a b : a ⊆ b -> normalized_set a ⊆ normalized_set b.
Proof.
  intros Hab x. rewrite !elem_of_normalized_set.
  intros (s & -> & Hne & Hs). exists s. auto.
Qed.

Lemma of_nat_nonneg n : (0 <= PyNum.of_nat n)%Q.
Proof. unfold PyNum.of_nat. rewrite <- (Zle_Qle 0). lia. Qed.

Lemma of_nat_le n m : n <= m -> (PyNum.of_nat n <= PyNum.of_nat m)%Q.
Proof. intros H. unfold PyNum.of_nat. rewrite <- Zle_Qle. lia. Qed.

Lemma points_weighted (r p : list string) :
  (SkillScoreSpec.points (length r) (length p)
   == SkillScoreSpec.weighted r p)%Q.
Proof. unfold SkillScoreSpec.points, SkillScoreSpec.weighted. ring. Qed.

Lemma points_nonneg r p : (0 <= SkillScoreSpec.points r p)%Q.
Proof.
  unfold SkillScoreSpec.points.
  pose proof (of_nat_nonneg r). pose proof (of_nat_nonneg p). lra.
Qed.

Lemma points_mono r p r' p' :
  r <= r' -> p <= p' ->
  (SkillScoreSpec.points r p <= SkillScoreSpec.points r' p')%Q.
Proof.
  intros Hr Hp. unfold SkillScoreSpec.points.
  pose proof (of_nat_le _ _ Hr). pose proof (of_nat_le _ _ Hp). lra.
Qed.

Lemma points_zero r p : (SkillScoreSpec.points r p == 0)%Q <-> r = 0 /\ p = 0.
Proof.
  unfold SkillScoreSpec.points, PyNum.of_nat. split.
  - intros H. unfold Qeq in H. simpl in H. lia.
  - intros [-> ->]. reflexivity.
Qed.

Lemma score_unfold resume required preferred :
  SkillMatchResult.score (score init resume required preferred)
  = Qmin (SkillScoreSpec.raw_score
            (size (normalized_set resume ∩ normalized_set required))
            (size (normalized_set resume ∩ normalized_set preferred))
            (size (normalized_set required))
            (size (normalized_set preferred))) 1.
Proof. reflexivity. Qed.

Lemma raw_score_mono mr mp mr' mp' r p :
  mr <= mr' -> mp <= mp' ->
  (SkillScoreSpec.raw_score mr mp r p
   <= SkillScoreSpec.raw_score mr' mp' r p)%Q.
Proof.
  intros Hr Hp. unfold SkillScoreSpec.raw_score.
  destruct (PyNum.eqb (SkillScoreSpec.points r p) 0) eqn:E; [apply Qle_refl|].
  assert (0 < SkillScoreSpec.points r p)%Q as Hpos.
  { pose proof (points_nonneg r p) as Hn.
    apply Qle_lt_or_eq in Hn as [Hn|Hn]; [done|].
    symmetry in Hn. apply Qeq_bool_iff in Hn. unfold PyNum.eqb in E. congruence. }
  unfold Qdiv. apply Qmult_le_compat_r.
  - by apply points_mono.
  - apply Qlt_le_weak, Qinv_lt_0_compat, Hpos.
Qed.

Lemma raw_score_le_1 mr mp r p :
  mr <= r -> mp <= p -> (SkillScoreSpec.raw_score mr mp r p <= 1)%Q.
Proof.
  intros Hr Hp. unfold SkillScoreSpec.raw_score.
  destruct (PyNum.eqb (SkillScoreSpec.points r p) 0) eqn:E; [done|].
  assert (0 < SkillScoreSpec.points r p)%Q as Hpos.
  { pose proof (points_nonneg r p) as Hn.
    apply Qle_lt_or_eq in Hn as [Hn|Hn]; [done|].
    symmetry in Hn. apply Qeq_bool_iff in Hn. unfold PyNum.eqb in E. congruence. }
  apply Qle_shift_div_r; [done|]. rewrite Qmult_1_l. by apply points_mono.
Qed.

End SkillScorerFacts.

(** C3.  With the default weights the skill score is
    (2 x matched required + 1 x matched preferred)
    / (2 x required + 1 x preferred) over the normalized, repeat-free sets
    of non-empty skills, at most 1; and it is exactly 1/2 when the job's
    required and preferred sets are both empty, whatever the resume lists. *)
Theorem skill_score_formula
    (resume_skills required_skills preferred_skills : list string) :
  let result :=
    SkillScorer.score SkillScorer.init resume_skills required_skills
                      preferred_skills in
  (SkillMatchResult.score result
   == SkillScoreSpec.score resume_skills required_skills preferred_skills)%Q
  /\ (SkillMatchResult.score result <= 1)%Q
  /\ (SkillScorer.normalized_set required_skills = ∅ ->
      SkillScorer.normalized_set preferred_skills = ∅ ->
      (SkillMatchResult.score result == 1 # 2)%Q).
Proof.
  cbv zeta. rewrite score_unfold, !size_matched, !size_normalized_set.
  split; [|split].
  - unfold SkillScoreSpec.score, SkillScoreSpec.raw_score.
    set (R := SkillScoreSpec.skill_keys required_skills).
    set (P := SkillScoreSpec.skill_keys preferred_skills).
    set (S := SkillScoreSpec.skill_keys resume_skills).
    destruct (PyNum.eqb (SkillScoreSpec.points (length R) (length P)) 0) eqn:E.
    + apply Qeq_bool_iff, points_zero in E as [HR HP].
      apply length_zero_iff_nil in HR, HP. rewrite HR, HP. reflexivity.
    + assert (~ (length R = 0 /\ length P = 0)) as Hne.
      { intros Hz. apply points_zero, Qeq_bool_iff in Hz.
        unfold PyNum.eqb in E. congruence. }
      rewrite Q.min_comm, !points_weighted.
      destruct R, P; simpl in Hne; try reflexivity. lia.
  - apply Q.le_min_r.
  - intros HR HP.
    assert (size (SkillScorer.normalized_set required_skills) = 0) as H1
      by (rewrite HR; apply size_empty).
    assert (size (SkillScorer.normalized_set preferred_skills) = 0) as H2
      by (rewrite HP; apply size_empty).
    rewrite size_normalized_set in H1, H2. rewrite H1, H2. reflexivity.
Qed.

Lemma skill_score_formula_witness :
  (SkillMatchResult.score
     (SkillScorer.score SkillScorer.init ["Python"; "K8s"] [""] [])
   == 1 # 2)%Q.
Proof.
  apply (proj2 (proj2 (skill_score_formula ["Python"; "K8s"] [""] [])));
    vm_compute; reflexivity.
Defined.

(** C4.  For fixed required and preferred skills, the skill score of the
    default scorer does not decrease when the resume's skill list grows. *)
Theorem skill_score_monotone
    (A B required_skills preferred_skills : list string) :
  A ⊆ B ->
  (SkillMatchResult.score
     (SkillScorer.score SkillScorer.init A required_skills preferred_skills)
   <= SkillMatchResult.score
        (SkillScorer.score SkillScorer.init B required_skills preferred_skills))%Q.
Proof.
  intros HAB. rewrite !score_unfold.
  pose proof (normalized_set_mono A B HAB) as Hsub.
  apply Q.min_le_compat_r, raw_score_mono; apply subseteq_size;
    intros x; rewrite !elem_of_intersection; intros [Hx ?]; split; auto.
Qed.

Lemma skill_score_monotone_witness :
  (SkillMatchResult.score
     (SkillScorer.score SkillScorer.init ["JS"] ["JavaScript"; "React"] ["Docker"])
   <= SkillMatchResult.score
        (SkillScorer.score SkillScorer.init ["ReactJS"; "JS"; "Go"]
                           ["JavaScript"; "React"] ["Docker"]))%Q.
Proof.
  apply (skill_score_monotone ["JS"] ["ReactJS"; "JS"; "Go"]).
  compute_done.
Defined.

(** ** The experience scorer *)

Lemma PyNum_geb_le a b : PyNum.geb a b = true <-> (b <= a)%Q.
Proof. apply Qle_bool_iff. Qed.

Lemma PyNum_leb_le a b : PyNum.leb a b = true <-> (a <= b)%Q.
Proof. apply Qle_bool_iff. Qed.

Lemma PyNum_geb_lt a b : PyNum.geb a b = false <-> (a < b)%Q.
Proof.
  unfold PyNum.geb. split; intros H.
  - destruct (Qlt_le_dec a b) as [Hlt|Hle]; [done|].
    apply Qle_bool_iff in Hle. congruence.
  - apply not_true_iff_false. intros Hle. apply Qle_bool_iff in Hle.
    by apply Qlt_not_le in H.
Qed.

Section ExperienceFacts.
Variable now : PyDatetime.datetime.
Variable strptime : string -> string -> option PyDatetime.datetime.

Lemma ratio_met (y : Q) (m : Z) :
  (inject_Z m <= y)%Q -> ExperienceScorer.ratio y m = 1%Q.
Proof.
  intros H. unfold ExperienceScorer.ratio.
  by rewrite (proj2 (PyNum_geb_le _ _) H).
Qed.

Lemma ratio_none (y : Q) (m : Z) :
  (0 < m)%Z -> (y <= 0)%Q -> ExperienceScorer.ratio y m = 0%Q.
Proof.
  intros Hm H. unfold ExperienceScorer.ratio.
  assert (y < inject_Z m)%Q as Hlt.
  { eapply Qle_lt_trans; [exact H|]. rewrite <- (Zlt_Qlt 0). exact Hm. }
  rewrite (proj2 (PyNum_geb_lt _ _) Hlt).
  by rewrite (proj2 (PyNum_leb_le _ _) H).
Qed.

Lemma ratio_partial (y : Q) (m : Z) :
  (0 < y)%Q -> (y < inject_Z m)%Q ->
  ExperienceScorer.ratio y m = (y / inject_Z m)%Q.
Proof.
  intros H0 Hm. unfold ExperienceScorer.ratio.
  rewrite (proj2 (PyNum_geb_lt _ _) Hm).
  destruct (PyNum.leb y 0) eqn:E; [|done].
  apply PyNum_leb_le in E. by apply Qlt_not_le in H0.
Qed.

Lemma score_required (ry : option Q) (m : Z) entries :
  (0 < m)%Z ->
  ExperienceScorer.score now strptime ry m entries
  = match ry, entries with
    | Some years, _ => ExperienceScorer.ratio years m
    | None, Some (e :: es) =>
        ExperienceScorer.ratio
          (ExperienceScorer.estimate_years_from_entries now strptime (e :: es)) m
    | None, _ => (1 # 2)%Q
    end.
Proof.
  intros Hm. unfold ExperienceScorer.score.
  destruct (m <=? 0)%Z eqn:E; [lia|done].
Qed.

End ExperienceFacts.

(** C5.  The experience score is 1 whenever the job asks for no minimum
    (job_min_years <= 0); otherwise, for known candidate years y, it is 1
    when y >= job_min_years, 0 when y <= 0, and exactly y / job_min_years in
    between, the years estimated from the experience entries standing for y
    when no resume_years is given; and it is the neutral 1/2 when the years
    are unknown: no resume_years and no experience entries (None or an
    empty list). *)
Theorem experience_score_cases
    (now : PyDatetime.datetime)
    (strptime : string -> string -> option PyDatetime.datetime)
    (job_min_years : Z) :
  ((job_min_years <= 0)%Z ->
   forall resume_years entries,
     ExperienceScorer.score now strptime resume_years job_min_years entries = 1%Q)
  /\ ((0 < job_min_years)%Z ->
      (forall y entries,
          ((inject_Z job_min_years <= y)%Q ->
           ExperienceScorer.score now strptime (Some y) job_min_years entries = 1%Q)
          /\ ((y <= 0)%Q ->
              ExperienceScorer.score now strptime (Some y) job_min_years entries = 0%Q)
          /\ ((0 < y)%Q -> (y < inject_Z job_min_years)%Q ->
              ExperienceScorer.score now strptime (Some y) job_min_years entries
              = (y / inject_Z job_min_years)%Q))
      /\ (forall e es entries,
             ExperienceScorer.score now strptime None job_min_years
                                    (Some (e :: es))
             = ExperienceScorer.score now strptime
                 (Some (ExperienceScorer.estimate_years_from_entries
                          now strptime (e :: es)))
                 job_min_years entries)
      /\ ExperienceScorer.score now strptime None job_min_years None = (1 # 2)%Q
      /\ ExperienceScorer.score now strptime None job_min_years (Some []) = (1 # 2)%Q).
Proof.
  split.
  - intros Hm ry entries. unfold ExperienceScorer.score.
    destruct (job_min_years <=? 0)%Z eqn:E; [done|lia].
  - intros Hm. split; [intros y entries; split; [|split]|split; [|split]].
    + intros H. rewrite score_required by done. by apply ratio_met.
    + intros H. rewrite score_required by done. by apply ratio_none.
    + intros H0 H1. rewrite score_required by done. by apply ratio_partial.
    + intros e es entries. by rewrite !score_required.
    + by rewrite score_required.
    + by rewrite score_required.
Qed.

Lemma experience_score_cases_witness :
  ExperienceScorer.score Examples.now PyDatetime.strptime (Some 2%Q) 5 None
  = (2 / inject_Z 5)%Q
  /\ ExperienceScorer.score Examples.now PyDatetime.strptime None 0
       (Some [ExperienceScorer.mkEntry None None true])
     = 1%Q.
Proof.
  split.
  - apply (proj2 (experience_score_cases Examples.now PyDatetime.strptime 5));
      reflexivity.
  - apply (proj1 (experience_score_cases Examples.now PyDatetime.strptime 0)).
    lia.
Defined.

(** ** Clearance detection *)

(** C6.  Detection tries the levels from the highest to the lowest, TS/SCI,
    Top Secret, Secret, Public Trust, and returns the first one of which a
    pattern is found anywhere in the case-folded text, NONE when there is
    none; so a text that mentions both Secret and TS/SCI is classified
    TS/SCI, whichever comes first in the text. *)
Theorem detect_clearance_highest_first :
  (forall text : string,
      Clearance.detect_clearance_from_text text
      = if Clearance.level_found Clearance.TS_SCI text then Clearance.TS_SCI
        else if Clearance.level_found Clearance.TOP_SECRET text
             then Clearance.TOP_SECRET
        else if Clearance.level_found Clearance.SECRET text
             then Clearance.SECRET
        else if Clearance.level_found Clearance.PUBLIC_TRUST text
             then Clearance.PUBLIC_TRUST
        else Clearance.NONE)
  /\ (forall text : string,
         Clearance.level_found Clearance.TS_SCI text = true ->
         Clearance.detect_clearance_from_text text = Clearance.TS_SCI)
  /\ Clearance.level_found Clearance.SECRET
       "Held a Secret clearance until 2019, TS/SCI since 2021" = true
  /\ Clearance.detect_clearance_from_text
       "Held a Secret clearance until 2019, TS/SCI since 2021"
     = Clearance.TS_SCI
  /\ Clearance.level_found Clearance.SECRET
       "TS/SCI since 2021, before that a Secret clearance" = true
  /\ Clearance.detect_clearance_from_text
       "TS/SCI since 2021, before that a Secret clearance"
     = Clearance.TS_SCI.
Proof.
  assert (forall text : string,
      Clearance.detect_clearance_from_text text
      = if Clearance.level_found Clearance.TS_SCI text then Clearance.TS_SCI
        else if Clearance.level_found Clearance.TOP_SECRET text
             then Clearance.TOP_SECRET
        else if Clearance.level_found Clearance.SECRET text
             then Clearance.SECRET
        else if Clearance.level_found Clearance.PUBLIC_TRUST text
             then Clearance.PUBLIC_TRUST
        else Clearance.NONE) as Heq.
  { intros [|c s]; [by vm_compute|].
    unfold Clearance.detect_clearance_from_text, Clearance.level_found.
    reflexivity. }
  split; [exact Heq|]. split.
  - intros text H. by rewrite Heq, H.
  - repeat split; by vm_compute.
Qed.

Lemma detect_clearance_highest_first_witness :
  Clearance.detect_clearance_from_text "Active TS/SCI clearance with CI Poly"
  = Clearance.TS_SCI.
Proof.
  apply (proj1 (proj2 detect_clearance_highest_first)).
  vm_compute. reflexivity.
Defined.

(** ** The match orchestrator *)

Section MatcherFacts.
Variable embedding : Type.
Variable encode : string -> embedding.
Variable cosine_similarity : embedding -> embedding -> Q.
Variable now : PyDatetime.datetime.
Variable strptime : string -> string -> option PyDatetime.datetime.

Local Abbreviation match_ :=
  (JobMatcher.match_ embedding encode cosine_similarity now strptime).
Local Abbreviation match_batch :=
  (JobMatcher.match_batch embedding encode cosine_similarity now strptime).
Local Abbreviation batch_embedding := (JobMatcher.batch_embedding embedding encode).

(** With a resume that lists positions, the years handed to the scorer are
    never [None]: the text pattern or else the position count. *)
Lemma estimate_experience_years_positions (resume : ResumeModel.Resume) :
  ResumeModel.experience resume <> [] ->
  ExperienceScorer.estimate_years_from_text (ResumeModel.raw_text resume) = None ->
  JobMatcher._estimate_experience_years resume
  = Some (ExperienceScorer.estimate_from_positions
            (Z.of_nat (length (ResumeModel.experience resume)))).
Proof.
  intros Hexp Htext. unfold JobMatcher._estimate_experience_years.
  rewrite Htext. destruct (PyStr.truthy _); by destruct (ResumeModel.experience resume).
Qed.

(** The scorer reaches the clock and the date parser only without
    [resume_years] and with experience entries, which [match] never
    supplies together. *)
Lemma experience_score_clock_free
    (now' : PyDatetime.datetime)
    (strptime' : string -> string -> option PyDatetime.datetime)
    (resume : ResumeModel.Resume) (job_min_years : Z) :
  ExperienceScorer.score now strptime
    (JobMatcher._estimate_experience_years resume) job_min_years
    (match ResumeModel.experience resume with
     | [] => None
     | _ :: _ => Some (JobMatcher.entry_of <$> ResumeModel.experience resume)
     end)
  = ExperienceScorer.score now' strptime'
      (JobMatcher._estimate_experience_years resume) job_min_years
      (match ResumeModel.experience resume with
       | [] => None
       | _ :: _ => Some (JobMatcher.entry_of <$> ResumeModel.experience resume)
       end).
Proof.
  unfold ExperienceScorer.score, JobMatcher._estimate_experience_years.
  destruct (job_min_years <=? 0)%Z; [done|].
  destruct (if PyStr.truthy (ResumeModel.raw_text resume)
            then ExperienceScorer.estimate_years_from_text
                   (ResumeModel.raw_text resume)
            else None); [done|].
  by destruct (ResumeModel.experience resume).
Qed.

(** The resume embedding that the batch computes is the one a single
    match computes for itself. *)
Lemma semantic_score_batch_embedding resume job_text :
  JobMatcher.semantic_score embedding encode cosine_similarity
    (ResumeModel.raw_text resume) job_text (batch_embedding resume None) None
  = JobMatcher.semantic_score embedding encode cosine_similarity
      (ResumeModel.raw_text resume) job_text None None.
Proof.
  unfold JobMatcher.semantic_score, JobMatcher.batch_embedding.
  by destruct (PyStr.truthy (ResumeModel.raw_text resume)).
Qed.

Lemma match_batch_embedding self resume job :
  match_ self resume job (batch_embedding resume None) None
  = match_ self resume job None None.
Proof.
  unfold JobMatcher.match_. by rewrite semantic_score_batch_embedding.
Qed.

Lemma insert_desc_perm r l : JobMatcher.insert_desc r l ≡ₚ r :: l.
Proof.
  induction l as [|r' l IH]; simpl; [done|].
  destruct (PyNum.geb _ _); [done|]. rewrite IH. apply Permutation_swap.
Qed.

Lemma insert_desc_hdrel a r l :
  JobMatcher.by_score_desc a r -> HdRel JobMatcher.by_score_desc a l ->
  HdRel JobMatcher.by_score_desc a (JobMatcher.insert_desc r l).
Proof.
  intros Har Hl. destruct l as [|r' l]; simpl; [by constructor|].
  destruct (PyNum.geb _ _); constructor; [done|]. by inversion Hl.
Qed.

Lemma insert_desc_sorted r l :
  Sorted JobMatcher.by_score_desc l ->
  Sorted JobMatcher.by_score_desc (JobMatcher.insert_desc r l).
Proof.
  induction 1 as [|r' l Hs IH Hhd]; simpl; [by repeat constructor|].
  destruct (PyNum.geb _ _) eqn:E.
  - constructor; [by constructor|]. constructor. by apply PyNum_geb_le in E.
  - constructor; [done|]. apply insert_desc_hdrel; [|done].
    apply PyNum_geb_lt in E. by apply Qlt_le_weak.
Qed.

Lemma sort_by_score_desc_perm l : JobMatcher.sort_by_score_desc l ≡ₚ l.
Proof.
  induction l as [|r l IH]; simpl; [done|].
  by rewrite insert_desc_perm, IH.
Qed.

Lemma sort_by_score_desc_sorted l :
  Sorted JobMatcher.by_score_desc (JobMatcher.sort_by_score_desc l).
Proof.
  induction l as [|r l IH]; simpl; [constructor|]. by apply insert_desc_sorted.
Qed.

End MatcherFacts.

(** C2.  The result of a match is disqualified exactly when the resume's
    clearance does not meet the job's; a disqualified result has score 0 and
    a non-empty disqualification reason, and a qualified result has no
    disqualification reason. *)
Theorem match_disqualification
    (embedding : Type) (encode : string -> embedding)
    (cosine_similarity : embedding -> embedding -> Q)
    (now : PyDatetime.datetime)
    (strptime : string -> string -> option PyDatetime.datetime)
    (self : JobMatcher.t) (resume : ResumeModel.Resume) (job : Job.t)
    (resume_embedding job_embedding : option embedding) :
  let result :=
    JobMatcher.match_ embedding encode cosine_similarity now strptime
                      self resume job resume_embedding job_embedding in
  MatchResult.disqualified result
  = negb (Clearance.meets_clearance_requirement
            (Clearance.detect_clearance_from_text (ResumeModel.raw_text resume))
            (Job.clearance_level job))
  /\ if MatchResult.disqualified result
     then MatchResult.score result = 0%Q
          /\ exists reason,
               MatchResult.disqualification_reason result = Some reason
               /\ reason <> ""
     else MatchResult.disqualification_reason result = None.
Proof.
  unfold JobMatcher.match_.
  destruct (Clearance.meets_clearance_requirement _ _);
    cbn [negb MatchResult.disqualified MatchResult.set_explanation
         MatchResult.disqualification_reason MatchResult.score].
  - split; reflexivity.
  - split; [reflexivity|]. split; [reflexivity|].
    eexists. split; [reflexivity|]. discriminate.
Qed.

(** C8 (what the code does).  The result of a match depends neither on the
    clock nor on the date parser: the sum of the entry durations is never
    computed.  For a resume whose text has no years phrase and which lists
    one position from 2015-01 to 2020-01, matched against a job asking for
    ten years: the years handed to the scorer are the position count times
    2.5, and the experience score is 0.25; the sum of the entry durations,
    five years, would score 0.5. *)
Theorem experience_years_position_count_first :
  (forall (embedding : Type) (encode : string -> embedding)
          (cosine_similarity : embedding -> embedding -> Q)
          (now now' : PyDatetime.datetime)
          (strptime strptime' : string -> string -> option PyDatetime.datetime)
          (self : JobMatcher.t) (resume : ResumeModel.Resume) (job : Job.t)
          (resume_embedding job_embedding : option embedding),
      JobMatcher.match_ embedding encode cosine_similarity now strptime
                        self resume job resume_embedding job_embedding
      = JobMatcher.match_ embedding encode cosine_similarity now' strptime'
                          self resume job resume_embedding job_embedding)
  /\ ExperienceScorer.estimate_years_from_text
    (ResumeModel.raw_text Examples.resume_history) = None
  /\ JobMatcher._estimate_experience_years Examples.resume_history
     = Some (5 # 2)%Q
  /\ (MatchResult.experience_score
        (Examples.match_ JobMatcher.init Examples.resume_history
                         Examples.job_ten_years None None)
      == 25 # 100)%Q
  /\ (ExperienceScorer.estimate_years_from_entries
        Examples.now PyDatetime.strptime
        (JobMatcher.entry_of <$> ResumeModel.experience Examples.resume_history)
      == 5)%Q
  /\ (ExperienceScorer.score Examples.now PyDatetime.strptime None
        (Job.min_experience_years Examples.job_ten_years)
        (Some (JobMatcher.entry_of
                 <$> ResumeModel.experience Examples.resume_history))
      == 50 # 100)%Q.
Proof.
  split.
  - intros. unfold JobMatcher.match_. cbv zeta.
    by rewrite (experience_score_clock_free now strptime now' strptime').
  - repeat split; vm_compute; reflexivity.
Qed.

(** C7 (as stated, refuted).  A call that leaves [sort_by_score] out is
    sorted by score: for the jobs [cleared; open] the first result is the
    one of the second job. *)
Lemma match_batch_default_call_reorders :
  ~ (forall (i : nat) (job : Job.t),
        [Examples.job_cleared; Examples.job_open] !! i = Some job ->
        Examples.match_batch JobMatcher.init Examples.resume_history
          [Examples.job_cleared; Examples.job_open] None None !! i
        = Some (Examples.match_ JobMatcher.init Examples.resume_history job
                  None None)).
Proof.
  intros H. specialize (H 0%nat Examples.job_cleared eq_refl).
  apply (f_equal (fmap MatchResult.job_id)) in H.
  vm_compute in H. discriminate H.
Qed.

(** C7 (amended).  [match_batch] returns one result per job.  With
    [sort_by_score=False] the results are in the order of the jobs: result i
    is the match of job i (computed with the resume embedding of the batch,
    which gives the same result as a single match).  With [sort_by_score]
    left out, or [True], the same results are returned sorted by score,
    highest first. *)
Theorem match_batch_order
    (embedding : Type) (encode : string -> embedding)
    (cosine_similarity : embedding -> embedding -> Q)
    (now : PyDatetime.datetime)
    (strptime : string -> string -> option PyDatetime.datetime)
    (self : JobMatcher.t) (resume : ResumeModel.Resume) (jobs : list Job.t)
    (resume_embedding : option embedding) :
  let batch := JobMatcher.match_batch embedding encode cosine_similarity now
                                      strptime self resume jobs in
  let match_ := JobMatcher.match_ embedding encode cosine_similarity now
                                  strptime self resume in
  let in_order :=
    (fun job =>
       match_ job (JobMatcher.batch_embedding embedding encode resume
                                              resume_embedding) None)
      <$> jobs in
  batch resume_embedding (Some false) = in_order
  /\ batch None (Some false) = (fun job => match_ job None None) <$> jobs
  /\ batch resume_embedding None = batch resume_embedding (Some true)
  /\ batch resume_embedding (Some true) ≡ₚ in_order
  /\ Sorted JobMatcher.by_score_desc (batch resume_embedding (Some true))
  /\ length (batch resume_embedding None) = length jobs.
Proof.
  cbv zeta. unfold JobMatcher.match_batch. cbn [default from_option id].
  destruct jobs as [|job jobs']; [by repeat split; try constructor|].
  set (js := job :: jobs').
  repeat split.
  - apply list_fmap_ext. intros _ j _. apply match_batch_embedding.
  - apply sort_by_score_desc_perm.
  - apply sort_by_score_desc_sorted.
  - rewrite sort_by_score_desc_perm. by rewrite length_fmap.
Qed.

(** ** The resume parser *)

(** One statement of the orchestration: run the guarded block and the
    attribute assignments that follow it. *)
Ltac parser_step :=
  cbv beta iota zeta delta
    [mbind ResumeParser.outcome_bind ResumeParser.try_except
     ResumeParser.set_sections ResumeParser.set_contact
     ResumeParser.set_skills ResumeParser.set_experience
     ResumeParser.set_education ResumeParser.append_error
     ResumeModel.raw_text ResumeModel.new ResumeParser.section_content
     ResumeModel.sections ResumeModel.contact ResumeModel.skills
     ResumeModel.experience ResumeModel.education ResumeModel.parse_errors].

(** C9.  Parsing a text never raises: it returns a resume in which each
    field holds what its extractor returned, or its default value when the
    extractor raised; each failure is recorded, in the order of the stages,
    as a message in [parse_errors]; and every extractor runs on the text
    whatever happened to the others. *)
Theorem parse_text_never_raises
    (section_extract :
       string -> ResumeParser.outcome (gmap string ResumeModel.ParsedSection))
    (contact_extract :
       string -> option string -> ResumeParser.outcome ResumeModel.ContactInfo)
    (skill_extract :
       string -> option string -> ResumeParser.outcome (list string))
    (experience_extract :
       string -> option string
       -> ResumeParser.outcome (list ResumeModel.WorkExperience))
    (education_extract :
       string -> option string
       -> ResumeParser.outcome (list ResumeModel.Education))
    (text : string) (source : option string) :
  exists resume : ResumeModel.Resume,
    ResumeParser.parse_text section_extract contact_extract skill_extract
      experience_extract education_extract text source
    = ResumeParser.Returns resume
    /\ ResumeModel.raw_text resume = text
    /\ let sections_result := section_extract text in
       let section := ResumeParser.section_content resume in
       let contact_result := contact_extract text (section "contact") in
       let skills_result := skill_extract text (section "skills") in
       let experience_result := experience_extract text (section "experience") in
       let education_result := education_extract text (section "education") in
       ResumeModel.sections resume = ResumeParser.value_or sections_result ∅
       /\ ResumeModel.contact resume
          = ResumeParser.value_or contact_result ResumeModel.empty_contact
       /\ ResumeModel.skills resume = ResumeParser.value_or skills_result []
       /\ ResumeModel.experience resume
          = ResumeParser.value_or experience_result []
       /\ ResumeModel.education resume
          = ResumeParser.value_or education_result []
       /\ ResumeModel.parse_errors resume
          = (ResumeParser.error_of "Section" sections_result
             ++ ResumeParser.error_of "Contact" contact_result
             ++ ResumeParser.error_of "Skill" skills_result
             ++ ResumeParser.error_of "Experience" experience_result
             ++ ResumeParser.error_of "Education" education_result)%list.
Proof.
  unfold ResumeParser.parse_text, ResumeParser._parse_content.
  cbv zeta. parser_step.
  destruct (section_extract text) as [secs|e1] eqn:E1; parser_step.
  all: destruct (contact_extract text _) as [c|e2] eqn:E2; parser_step.
  all: destruct (skill_extract text _) as [s|e3] eqn:E3; parser_step.
  all: destruct (experience_extract text _) as [x|e4] eqn:E4; parser_step.
  all: destruct (education_extract text _) as [d|e5] eqn:E5; parser_step.
  all: eexists; split; [reflexivity|]; split; [reflexivity|]; parser_step.
  all: rewrite ?E2, ?E3, ?E4, ?E5.
  all: repeat split; reflexivity.
Qed.

(** ** Equality of match results *)

Lemma PyNum_ltb_lt a b : PyNum.ltb a b = true <-> (a < b)%Q.
Proof.
  unfold PyNum.ltb. rewrite Qlt_alt.
  destruct (a ?= b)%Q; split; congruence.
Qed.

(** C10.  Equality on match results compares the composite scores alone,
    with an absolute tolerance of 0.01: two results are equal exactly when
    their scores differ by less than 0.01, whatever their other fields hold;
    so this equality is not transitive. *)
Theorem match_result_eq_tolerance :
  (forall r1 r2 : MatchResult.t,
      MatchResult.eq r1 r2 = true
      <-> (Qabs (MatchResult.score r1 - MatchResult.score r2) < 1 # 100)%Q)
  /\ (forall r1 r2 : MatchResult.t,
         MatchResult.eq r1 r2
         = MatchResult.eq (MatchResult.of_score (MatchResult.score r1))
                          (MatchResult.of_score (MatchResult.score r2)))
  /\ (exists r1 r2 r3 : MatchResult.t,
         MatchResult.eq r1 r2 = true /\ MatchResult.eq r2 r3 = true
         /\ MatchResult.eq r1 r3 = false).
Proof.
  split; [|split].
  - intros r1 r2. unfold MatchResult.eq. apply PyNum_ltb_lt.
  - reflexivity.
  - exists (MatchResult.of_score 50), (MatchResult.of_score (50006 # 1000)),
      (MatchResult.of_score (50012 # 1000)).
    by vm_compute.
Qed.

(** * Further properties of the code *)

(** ** Clearance levels *)

(** X1.  Meeting a clearance requirement is a total order on the levels:
    reflexive, transitive, antisymmetric and total; a requirement of NONE
    is met by every level and TS/SCI meets every requirement. *)
Theorem meets_clearance_total_order :
  (forall a, Clearance.meets_clearance_requirement a a = true)
  /\ (forall a b c,
         Clearance.meets_clearance_requirement a b = true ->
         Clearance.meets_clearance_requirement b c = true ->
         Clearance.meets_clearance_requirement a c = true)
  /\ (forall a b,
         Clearance.meets_clearance_requirement a b = true ->
         Clearance.meets_clearance_requirement b a = true -> a = b)
  /\ (forall a b,
         Clearance.meets_clearance_requirement a b = true
         \/ Clearance.meets_clearance_requirement b a = true)
  /\ (forall a, Clearance.meets_clearance_requirement a Clearance.NONE = true)
  /\ (forall b, Clearance.meets_clearance_requirement Clearance.TS_SCI b = true).
Proof.
  repeat split.
  - by intros [].
  - intros [] [] []; by vm_compute.
  - intros [] []; by vm_compute.
  - intros [] []; vm_compute; auto.
  - by intros [].
  - by intros [].
Qed.

Lemma meets_clearance_total_order_witness :
  Clearance.meets_clearance_requirement Clearance.TS_SCI Clearance.SECRET
  = true.
Proof.
  apply (proj1 (proj2 meets_clearance_total_order)
           Clearance.TS_SCI Clearance.TOP_SECRET Clearance.SECRET);
    reflexivity.
Defined.

(** X2.  The display name of a level parses back to the level, for the
    names of [clearance_to_string] and for those of
    [Job.get_clearance_string], which are the same; parsing ignores case
    and surrounding blanks, and a string that is no known name is NONE. *)
Theorem parse_clearance_string_round_trip :
  (forall level,
      Clearance.parse_clearance_string (Clearance.clearance_to_string level)
      = level)
  /\ (forall job : Job.t,
         Job.get_clearance_string job
         = Clearance.clearance_to_string (Job.clearance_level job))
  /\ (forall s : string,
         Clearance.parse_clearance_string (PyStr.strip (PyStr.lower s))
         = Clearance.parse_clearance_string s)
  /\ (forall s : string,
         Clearance.mappings !! PyStr.strip (PyStr.lower s) = None ->
         Clearance.parse_clearance_string s = Clearance.NONE).
Proof.
  split; [by intros []|]. split; [by intros [? ? ? ? [] ? ? ? ? ? ? ? ? ?]|].
  split.
  - intros s. unfold Clearance.parse_clearance_string.
    rewrite strip_lower_fixed.
    destruct (PyStr.truthy s) eqn:Hs; cbn [negb].
    + destruct (PyStr.strip (PyStr.lower s)) eqn:E; [by vm_compute|done].
    + destruct s; [|done]. by vm_compute.
  - intros s H. unfold Clearance.parse_clearance_string. rewrite H.
    by destruct (PyStr.truthy s).
Qed.

Lemma parse_clearance_string_round_trip_witness :
  Clearance.parse_clearance_string "Q clearance" = Clearance.NONE.
Proof.
  apply (proj2 (proj2 (proj2 parse_clearance_string_round_trip))).
  vm_compute. reflexivity.
Defined.



(** ** Skill synonyms *)

Section SynonymFacts.
Import SkillSynonyms.

(** Every display name is a spelling of the key it is filed under. *)
Lemma display_names_normalize :
  map_Forall (fun key shown => normalize_skill shown = key) display_names.
Proof. compute_done. Qed.

Lemma partition_skills_filter (resume_normalized : gset string) job_skills :
  partition_skills resume_normalized job_skills
  = (get_canonical_skill
       <$> filter (fun s => normalize_skill s ∈ resume_normalized) job_skills,
     get_canonical_skill
       <$> filter (fun s => normalize_skill s ∉ resume_normalized) job_skills).
Proof.
  induction job_skills as [|s l IH]; [done|].
  cbn [partition_skills]. rewrite IH. rewrite !filter_cons.
  destruct (decide (normalize_skill s ∈ resume_normalized)) as [Hin|Hout].
  - rewrite bool_decide_eq_true_2 by done.
    rewrite decide_False by (intros H; by apply H). done.
  - rewrite bool_decide_eq_false_2 by done.
    rewrite decide_True by done. done.
Qed.

Lemma get_canonical_skill_normalize s :
  normalize_skill (get_canonical_skill s) = normalize_skill s.
Proof.
  unfold get_canonical_skill.
  destruct (display_names !! normalize_skill s) as [shown|] eqn:E;
    cbn [default from_option id]; [|done].
  exact (display_names_normalize _ _ E).
Qed.

Lemma get_canonical_skill_idem s :
  get_canonical_skill (get_canonical_skill s) = get_canonical_skill s.
Proof.
  unfold get_canonical_skill at 1. rewrite get_canonical_skill_normalize.
  unfold get_canonical_skill.
  by destruct (display_names !! normalize_skill s).
Qed.

Lemma skills_match_true a b :
  skills_match a b = true
  <-> a <> "" /\ b <> "" /\ normalize_skill a = normalize_skill b.
Proof.
  unfold skills_match. destruct a, b; cbn [PyStr.truthy negb orb];
    rewrite ?bool_decide_eq_true; split; try done; intros; try tauto;
    repeat split; done.
Qed.

End SynonymFacts.

(** X4.  Matching of two skills is reflexive exactly on the non-empty
    strings, symmetric and transitive; two skills that match have the same
    normalized form. *)
Theorem skills_match_equivalence :
  (forall a, SkillSynonyms.skills_match a a = PyStr.truthy a)
  /\ (forall a b,
         SkillSynonyms.skills_match a b = SkillSynonyms.skills_match b a)
  /\ (forall a b c,
         SkillSynonyms.skills_match a b = true ->
         SkillSynonyms.skills_match b c = true ->
         SkillSynonyms.skills_match a c = true)
  /\ (forall a b,
         SkillSynonyms.skills_match a b = true ->
         SkillSynonyms.normalize_skill a = SkillSynonyms.normalize_skill b).
Proof.
  unfold SkillSynonyms.skills_match. repeat split.
  - intros a. destruct (PyStr.truthy a); cbn [negb orb]; [|done].
    by apply bool_decide_eq_true_2.
  - intros a b. destruct (PyStr.truthy a), (PyStr.truthy b); cbn [negb orb];
      try done.
    apply bool_decide_ext. split; congruence.
  - intros a b c.
    destruct (PyStr.truthy a), (PyStr.truthy b), (PyStr.truthy c);
      cbn [negb orb]; try done.
    rewrite !bool_decide_eq_true. congruence.
  - intros a b.
    destruct (PyStr.truthy a), (PyStr.truthy b); cbn [negb orb]; try done.
    by rewrite bool_decide_eq_true.
Qed.

Lemma skills_match_equivalence_witness :
  SkillSynonyms.skills_match "JS" "es6" = true.
Proof.
  apply (proj1 (proj2 (proj2 skills_match_equivalence))
           "JS" "JavaScript" "es6"); vm_compute; reflexivity.
Defined.

(** X5.  [find_matching_skills] splits the job's skills in two, in their
    order and in display form: the matched ones, whose normalized form is
    that of some resume skill, and the missing ones; so the two lists
    together are as long as the job's list, and with no resume skill
    everything is missing. *)
Theorem find_matching_skills_partition (resume_skills job_skills : list string) :
  let result := SkillSynonyms.find_matching_skills resume_skills job_skills in
  let known (s : string) :=
    SkillSynonyms.normalize_skill s
    ∈ SkillSynonyms.normalize_skill <$> resume_skills in
  result.1 = SkillSynonyms.get_canonical_skill <$> filter known job_skills
  /\ result.2
     = SkillSynonyms.get_canonical_skill
         <$> filter (fun s => ~ known s) job_skills
  /\ length result.1 + length result.2 = length job_skills
  /\ SkillSynonyms.find_matching_skills [] job_skills
     = ([], SkillSynonyms.get_canonical_skill <$> job_skills).
Proof.
  cbv zeta. unfold SkillSynonyms.find_matching_skills.
  rewrite !partition_skills_filter. cbn [fst snd].
  split; [|split; [|split]].
  - f_equal. apply list_filter_iff. intros x. by rewrite elem_of_list_to_set.
  - f_equal. apply list_filter_iff. intros x. by rewrite elem_of_list_to_set.
  - rewrite !length_fmap, <- length_app.
    apply Permutation_length, filter_app_complement.
  - cbn [fmap list_fmap list_to_set foldr]. f_equal.
    + replace (filter _ job_skills) with (@nil string); [done|].
      induction job_skills as [|s l IH]; [done|].
      rewrite filter_cons, decide_False; [done|apply not_elem_of_empty].
    + f_equal. induction job_skills as [|s l IH]; [done|].
      rewrite filter_cons, decide_True; [by f_equal|apply not_elem_of_empty].
Qed.

(** X6.  Every canonical key of the synonym table normalizes to itself,
    and every listed synonym normalizes to the key that lists it, with
    three exceptions: "ruby on rails" and "ror", listed under ruby and
    under rails, and "tf", listed under terraform and under tensorflow, go
    to the later entry; so "tf" does not match Terraform. *)
Theorem synonyms_resolve_to_their_entry :
  Forall (fun entry =>
            SkillSynonyms.normalize_skill entry.1 = entry.1
            /\ Forall (fun synonym =>
                         SkillSynonyms.normalize_skill synonym = entry.1
                         \/ synonym ∈ ["ruby on rails"; "ror"; "tf"])
                      entry.2)
         SkillSynonyms.SKILL_SYNONYMS
  /\ SkillSynonyms.normalize_skill "ruby on rails" = "rails"
  /\ SkillSynonyms.normalize_skill "ror" = "rails"
  /\ SkillSynonyms.normalize_skill "tf" = "tensorflow"
  /\ SkillSynonyms.skills_match "Terraform" "TF" = false
  /\ SkillSynonyms.skills_match "Ruby" "RoR" = false.
Proof. repeat split; compute_done. Qed.

(** X7.  The display form of a skill is a spelling of the same skill: it
    normalizes to what the skill normalizes to; taking the display form
    twice changes nothing. *)
Theorem get_canonical_skill_preserves_skill :
  (forall s : string,
      SkillSynonyms.normalize_skill (SkillSynonyms.get_canonical_skill s)
      = SkillSynonyms.normalize_skill s)
  /\ (forall s : string,
         SkillSynonyms.get_canonical_skill (SkillSynonyms.get_canonical_skill s)
         = SkillSynonyms.get_canonical_skill s).
Proof.
  split; [exact get_canonical_skill_normalize|exact get_canonical_skill_idem].
Qed.

(** ** The synonyms of a skill *)

Section AllSynonymsFacts.
Import SkillSynonyms.

(** The table as a dict: what each entry holds normalizes to its key, but
    for the three synonyms that a later entry lists too. *)
Lemma synonyms_dict_resolve :
  map_Forall (fun key synonyms =>
                normalize_skill key = key
                /\ Forall (fun synonym =>
                             normalize_skill synonym = key
                             \/ synonym ∈ ["ruby on rails"; "ror"; "tf"])
                          synonyms)
             synonyms_dict.
Proof. compute_done. Qed.

Lemma normalize_skill_lower skill :
  normalize_skill (PyStr.lower skill) = normalize_skill skill.
Proof.
  unfold normalize_skill. rewrite lower_idem. by destruct skill.
Qed.

End AllSynonymsFacts.

(** X24.  The synonyms returned for a skill are spellings of it: each one
    normalizes to what the skill normalizes to, the three synonyms that two
    entries of the table list ("ruby on rails", "ror" and "tf") apart; the
    set is never empty, and for a skill of the table it holds the canonical
    key. *)
Theorem get_all_synonyms_are_spellings (skill : string) :
  (forall synonym,
      synonym ∈ SkillSynonyms.get_all_synonyms skill ->
      SkillSynonyms.normalize_skill synonym
      = SkillSynonyms.normalize_skill skill
      \/ synonym ∈ ["ruby on rails"; "ror"; "tf"])
  /\ SkillSynonyms.get_all_synonyms skill <> ∅
  /\ (is_Some (SkillSynonyms.synonyms_dict
                 !! SkillSynonyms.normalize_skill skill) ->
      SkillSynonyms.normalize_skill skill
      ∈ SkillSynonyms.get_all_synonyms skill).
Proof.
  unfold SkillSynonyms.get_all_synonyms.
  destruct (SkillSynonyms.synonyms_dict !! SkillSynonyms.normalize_skill skill)
    as [synonyms|] eqn:E.
  - destruct (synonyms_dict_resolve _ _ E) as [Hkey Hsyn].
    split; [|split].
    + intros synonym [Hin| ->%elem_of_singleton]%elem_of_union; [|by left].
      apply elem_of_list_to_set in Hin. rewrite Forall_forall in Hsyn.
      by apply Hsyn.
    + intros H. apply (not_elem_of_empty (C:=gset string)
                         (SkillSynonyms.normalize_skill skill)).
      rewrite <- H. apply elem_of_union. right. by apply elem_of_singleton.
    + intros _. apply elem_of_union. right. by apply elem_of_singleton.
  - split; [|split].
    + intros synonym ->%elem_of_singleton. left. apply normalize_skill_lower.
    + intros H. apply (not_elem_of_empty (C:=gset string) (PyStr.lower skill)).
      rewrite <- H. by apply elem_of_singleton.
    + by intros [? ?].
Qed.

(** ** The display lists of the skill scorer *)

Section DisplayFacts.
Import SkillSynonyms SkillScorer.

(** The normalized forms of a list of skills, empty strings included. *)
Local Abbreviation image l := (list_to_set (normalize_skill <$> l) : gset string).

Lemma normalized_set_image l : normalized_set l ⊆ image l.
Proof.
  intros x. rewrite elem_of_normalized_set, elem_of_list_to_set, list_elem_of_fmap.
  intros (s & -> & _ & Hs). eauto.
Qed.

Lemma display_loop_length (S : gset string) orig seen :
  length (display_loop S orig seen) = size ((S ∩ image orig) ∖ seen).
Proof.
  revert seen. induction orig as [|x r IH]; intros seen.
  - cbn [display_loop fmap list_fmap list_to_set foldr length].
    replace ((S ∩ (∅ : gset string)) ∖ seen) with (∅ : gset string).
    + by rewrite size_empty.
    + apply set_eq. intros y. set_unfold. tauto.
  - cbn [display_loop]. rewrite fmap_cons, list_to_set_cons.
    destruct (decide (normalize_skill x ∈ S)) as [HS|HS];
      [destruct (decide (normalize_skill x ∉ seen)) as [Hs|Hs]|].
    + rewrite !bool_decide_eq_true_2 by done. cbn [andb length]. rewrite IH.
      replace ((S ∩ ({[normalize_skill x]} ∪ image r)) ∖ seen)
        with (({[normalize_skill x]} : gset string)
              ∪ (S ∩ image r) ∖ ({[normalize_skill x]} ∪ seen)).
      * symmetry. etrans; [apply size_union|by rewrite size_singleton].
        intros y. set_unfold. tauto.
      * apply set_eq. intros y. set_unfold.
        destruct (decide (y = normalize_skill x)) as [->|];
          intuition congruence.
    + rewrite (bool_decide_eq_false_2 (_ ∉ _)) by done.
      rewrite andb_false_r, IH. f_equal. apply set_eq. intros y.
      set_unfold. apply dec_stable in Hs.
      destruct (decide (y = normalize_skill x)) as [->|];
        intuition congruence.
    + rewrite (bool_decide_eq_false_2 (_ ∈ _)) by done.
      cbn [andb]. rewrite IH. f_equal. apply set_eq. intros y.
      set_unfold.
      destruct (decide (y = normalize_skill x)) as [->|];
        intuition congruence.
Qed.

Lemma get_display_skills_length (S : gset string) orig :
  S ⊆ image orig -> length (_get_display_skills S orig) = size S.
Proof.
  intros H. unfold _get_display_skills. rewrite display_loop_length.
  f_equal. apply set_eq. intros y. specialize (H y). set_unfold.
  intuition.
Qed.

Lemma display_loop_elem (S : gset string) orig seen d :
  d ∈ display_loop S orig seen ->
  exists s, s ∈ orig /\ d = get_canonical_skill s /\ normalize_skill s ∈ S.
Proof.
  revert seen. induction orig as [|x r IH]; intros seen; cbn [display_loop].
  - by intros ?%elem_of_nil.
  - destruct (bool_decide (normalize_skill x ∈ S)) eqn:E1;
      [destruct (bool_decide (normalize_skill x ∉ seen))|]; cbn [andb].
    + intros [->|H]%elem_of_cons.
      * exists x. apply bool_decide_eq_true in E1. set_solver.
      * destruct (IH _ H) as (s & ? & ? & ?). exists s. set_solver.
    + intros H. destruct (IH _ H) as (s & ? & ? & ?). exists s. set_solver.
    + intros H. destruct (IH _ H) as (s & ? & ? & ?). exists s. set_solver.
Qed.

Lemma sorted_length l : length (sorted l) = length l.
Proof. unfold sorted. by rewrite merge_sort_Permutation. Qed.

Lemma elem_of_sorted x l : x ∈ sorted l <-> x ∈ l.
Proof. unfold sorted. by rewrite merge_sort_Permutation. Qed.

#[local] Instance str_le_total : Total str_le.
Proof.
  intros a b. unfold str_le. destruct (String.leb_total a b) as [H|H];
    rewrite H; auto.
Qed.

Lemma sorted_sorted l : Sorted str_le (sorted l).
Proof. apply (Sorted_merge_sort str_le). Qed.

Lemma points_eq_iff mr mp r p :
  mr <= r -> mp <= p ->
  (SkillScoreSpec.points mr mp == SkillScoreSpec.points r p)%Q
  <-> mr = r /\ mp = p.
Proof.
  intros Hr Hp. unfold SkillScoreSpec.points, PyNum.of_nat. split.
  - intros H. unfold Qeq in H. simpl in H. lia.
  - by intros [-> ->].
Qed.

Lemma raw_score_full mr mp r p :
  mr <= r -> mp <= p -> ~ (r = 0 /\ p = 0) ->
  (SkillScoreSpec.raw_score mr mp r p == 1)%Q <-> mr = r /\ mp = p.
Proof.
  intros Hr Hp Hne. unfold SkillScoreSpec.raw_score.
  destruct (PyNum.eqb (SkillScoreSpec.points r p) 0) eqn:E.
  { apply Qeq_bool_iff, points_zero in E. tauto. }
  assert (~ SkillScoreSpec.points r p == 0)%Q as Hnz.
  { intros H. apply Qeq_bool_iff in H. unfold PyNum.eqb in E. congruence. }
  rewrite <- points_eq_iff by done. split; intros H.
  - apply (Qmult_inj_r _ _ (/ SkillScoreSpec.points r p)).
    + intros Hi. apply Hnz. rewrite <- (Qinv_involutive (SkillScoreSpec.points r p)).
      by rewrite Hi.
    + rewrite Qmult_inv_r by done. exact H.
  - unfold Qdiv. rewrite H. by apply Qmult_inv_r.
Qed.

Lemma missing_lengths resume_skills required_skills preferred_skills :
  length (SkillMatchResult.missing_required
            (score init resume_skills required_skills preferred_skills))
  = size (normalized_set required_skills)
    - size (normalized_set resume_skills ∩ normalized_set required_skills)
  /\ length (SkillMatchResult.missing_preferred
               (score init resume_skills required_skills preferred_skills))
     = size (normalized_set preferred_skills)
       - size (normalized_set resume_skills
               ∩ normalized_set preferred_skills).
Proof.
  unfold score.
  cbn [SkillMatchResult.missing_required SkillMatchResult.missing_preferred].
  pose proof (normalized_set_image required_skills) as HR.
  pose proof (normalized_set_image preferred_skills) as HP.
  split.
  - rewrite sorted_length, get_display_skills_length.
    + apply size_difference. intros x. rewrite elem_of_intersection. tauto.
    + intros x [Hx _]%elem_of_difference. by apply HR.
  - rewrite sorted_length, get_display_skills_length.
    + apply size_difference. intros x. rewrite elem_of_intersection. tauto.
    + intros x [Hx _]%elem_of_difference. by apply HP.
Qed.

End DisplayFacts.

(** X8.  The three display lists of a skill match are sorted in code point
    order, and they count the normalized sets: the missing required
    (preferred) skills are the required (preferred) set less its matched
    part, the matched skills are the matched required and preferred ones
    together, and there is one gap per missing skill. *)
Theorem skill_match_lists_count
    (resume_skills required_skills preferred_skills : list string) :
  let result :=
    SkillScorer.score SkillScorer.init resume_skills required_skills
                      preferred_skills in
  let resume := SkillScorer.normalized_set resume_skills in
  let required := SkillScorer.normalized_set required_skills in
  let preferred := SkillScorer.normalized_set preferred_skills in
  length (SkillMatchResult.missing_required result)
  = size required - size (resume ∩ required)
  /\ length (SkillMatchResult.missing_preferred result)
     = size preferred - size (resume ∩ preferred)
  /\ length (SkillMatchResult.matched_skills result)
     = size (resume ∩ (required ∪ preferred))
  /\ length (SkillMatchResult.gaps result)
     = length (SkillMatchResult.missing_required result)
       + length (SkillMatchResult.missing_preferred result)
  /\ Sorted SkillScorer.str_le (SkillMatchResult.matched_skills result)
  /\ Sorted SkillScorer.str_le (SkillMatchResult.missing_required result)
  /\ Sorted SkillScorer.str_le (SkillMatchResult.missing_preferred result).
Proof.
  cbv zeta.
  destruct (missing_lengths resume_skills required_skills preferred_skills)
    as [Hmr Hmp].
  split; [exact Hmr|]. split; [exact Hmp|]. clear Hmr Hmp.
  unfold SkillScorer.score.
  cbn [SkillMatchResult.missing_required SkillMatchResult.missing_preferred
       SkillMatchResult.matched_skills SkillMatchResult.gaps].
  pose proof (normalized_set_image required_skills) as HR.
  pose proof (normalized_set_image preferred_skills) as HP.
  repeat split; try apply sorted_sorted.
  - rewrite sorted_length, get_display_skills_length.
    + f_equal. apply set_eq. intros x.
      rewrite !elem_of_union, !elem_of_intersection, elem_of_union. tauto.
    + rewrite fmap_app, list_to_set_app_L. intros x.
      rewrite !elem_of_union, !elem_of_intersection.
      intros [[_ Hx]|[_ Hx]]; [left; by apply HR|right; by apply HP].
  - unfold SkillScorer._build_skill_gaps.
    by rewrite length_app, !length_fmap, !sorted_length.
Qed.

(** X9.  For a job that lists at least one skill, the skill score is 1
    exactly when no required and no preferred skill is missing. *)
Theorem skill_score_full_iff_nothing_missing
    (resume_skills required_skills preferred_skills : list string) :
  SkillScorer.normalized_set required_skills
    ∪ SkillScorer.normalized_set preferred_skills <> ∅ ->
  let result :=
    SkillScorer.score SkillScorer.init resume_skills required_skills
                      preferred_skills in
  (SkillMatchResult.score result == 1)%Q
  <-> SkillMatchResult.missing_required result = []
      /\ SkillMatchResult.missing_preferred result = [].
Proof.
  intros Hne. cbv zeta.
  pose proof (missing_lengths resume_skills required_skills preferred_skills)
    as [H1 H2].
  rewrite <- !length_zero_iff_nil, H1, H2, score_unfold.
  set (S := SkillScorer.normalized_set resume_skills) in *.
  set (R := SkillScorer.normalized_set required_skills) in *.
  set (P := SkillScorer.normalized_set preferred_skills) in *.
  assert (size (S ∩ R) <= size R) as HR.
  { apply subseteq_size. intros x. rewrite elem_of_intersection. tauto. }
  assert (size (S ∩ P) <= size P) as HP.
  { apply subseteq_size. intros x. rewrite elem_of_intersection. tauto. }
  assert (~ (size R = 0 /\ size P = 0)) as Hsz.
  { intros [HR0 HP0]. apply size_empty_iff in HR0, HP0. apply Hne.
    apply set_eq. intros x. rewrite elem_of_union, HR0, HP0.
    rewrite !elem_of_empty. tauto. }
  pose proof (raw_score_le_1 _ _ _ _ HR HP) as Hle.
  pose proof (raw_score_full _ _ _ _ HR HP Hsz) as Hfull.
  rewrite (Q.min_l _ _ Hle), Hfull. lia.
Qed.

Lemma skill_score_full_iff_nothing_missing_witness :
  (SkillMatchResult.score
     (SkillScorer.score SkillScorer.init ["JS"; "ReactJS"; "NodeJS"]
                        ["JavaScript"; "React"; "Node.js"] [])
   == 1)%Q
  <-> SkillMatchResult.missing_required
        (SkillScorer.score SkillScorer.init ["JS"; "ReactJS"; "NodeJS"]
                           ["JavaScript"; "React"; "Node.js"] []) = []
      /\ SkillMatchResult.missing_preferred
           (SkillScorer.score SkillScorer.init ["JS"; "ReactJS"; "NodeJS"]
                              ["JavaScript"; "React"; "Node.js"] []) = [].
Proof.
  apply (skill_score_full_iff_nothing_missing ["JS"; "ReactJS"; "NodeJS"]
           ["JavaScript"; "React"; "Node.js"] []).
  compute_done.
Defined.

Section DisplayMembers.
Import SkillSynonyms SkillScorer.

Lemma display_loop_complete (S : gset string) orig seen n :
  n ∈ S -> n ∉ seen -> n ∈ (normalize_skill <$> orig) ->
  exists d, d ∈ display_loop S orig seen /\ normalize_skill d = n.
Proof.
  intros HS. revert seen.
  induction orig as [|x r IH]; intros seen Hseen Hin.
  - by apply elem_of_nil in Hin.
  - cbn [display_loop]. rewrite fmap_cons in Hin.
    destruct (decide (normalize_skill x ∈ S)) as [HxS|HxS];
      [destruct (decide (normalize_skill x ∉ seen)) as [Hxs|Hxs]|].
    + rewrite !bool_decide_eq_true_2 by done. cbn [andb].
      destruct (decide (n = normalize_skill x)) as [->|Hne].
      * exists (get_canonical_skill x). split; [apply elem_of_cons; by left|].
        apply get_canonical_skill_normalize.
      * apply elem_of_cons in Hin as [?|Hin]; [done|].
        destruct (IH ({[normalize_skill x]} ∪ seen)) as (d & Hd & Hn);
          [|done|].
        { rewrite elem_of_union, elem_of_singleton. tauto. }
        exists d. split; [apply elem_of_cons; by right|done].
    + rewrite (bool_decide_eq_false_2 (_ ∉ _)) by done.
      rewrite andb_false_r.
      apply elem_of_cons in Hin as [->|Hin]; [done|]. by apply IH.
    + rewrite (bool_decide_eq_false_2 (_ ∈ _)) by done. cbn [andb].
      apply elem_of_cons in Hin as [->|Hin]; [done|]. by apply IH.
Qed.

Lemma ratio_percent (m n : nat) :
  m <= n -> 0 < n ->
  let p := (PyNum.of_nat m / PyNum.of_nat n * 100)%Q in
  (0 <= p)%Q /\ (p <= 100)%Q /\ ((p == 100)%Q <-> m = n)
  /\ ((p == 0)%Q <-> m = 0).
Proof.
  intros Hmn Hn. unfold PyNum.of_nat, Qdiv, Qle, Qeq.
  destruct (Z.of_nat n) as [|k|k] eqn:E; try lia.
  cbn [inject_Z Qinv Qmult Qnum Qden].
  rewrite Pos.mul_1_l, Pos.mul_1_r.
  repeat split; intros; lia.
Qed.

End DisplayMembers.

(** X10.  Each skill shown as matched is the display form of a skill of the
    job whose normalized form is that of a non-empty skill of the resume,
    and each skill shown as missing is the display form of a skill of the
    job for which the resume has no such skill.  Conversely a non-empty
    skill of the job that the resume has appears among the matched skills,
    under the display form of one of its spellings, and one the resume does
    not have appears among the missing required (preferred) skills. *)
Theorem skill_match_lists_sound_and_complete
    (resume_skills required_skills preferred_skills : list string) :
  let result :=
    SkillScorer.score SkillScorer.init resume_skills required_skills
                      preferred_skills in
  let has s :=
    exists r, r ∈ resume_skills /\ r <> ""
      /\ SkillSynonyms.normalize_skill r = SkillSynonyms.normalize_skill s in
  let shown (l : list string) s :=
    exists d, d ∈ l
      /\ SkillSynonyms.normalize_skill d = SkillSynonyms.normalize_skill s in
  (forall d, d ∈ SkillMatchResult.matched_skills result ->
     exists s, s ∈ (required_skills ++ preferred_skills)%list
       /\ d = SkillSynonyms.get_canonical_skill s /\ has s)
  /\ (forall d, d ∈ SkillMatchResult.missing_required result ->
        exists s, s ∈ required_skills
          /\ d = SkillSynonyms.get_canonical_skill s /\ ~ has s)
  /\ (forall d, d ∈ SkillMatchResult.missing_preferred result ->
        exists s, s ∈ preferred_skills
          /\ d = SkillSynonyms.get_canonical_skill s /\ ~ has s)
  /\ (forall s, s ∈ required_skills -> s <> "" ->
        (has s -> shown (SkillMatchResult.matched_skills result) s)
        /\ (~ has s -> shown (SkillMatchResult.missing_required result) s))
  /\ (forall s, s ∈ preferred_skills -> s <> "" ->
        (has s -> shown (SkillMatchResult.matched_skills result) s)
        /\ (~ has s -> shown (SkillMatchResult.missing_preferred result) s)).
Proof.
  cbv zeta. unfold SkillScorer.score.
  cbn [SkillMatchResult.missing_required SkillMatchResult.missing_preferred
       SkillMatchResult.matched_skills].
  set (S := SkillScorer.normalized_set resume_skills).
  set (R := SkillScorer.normalized_set required_skills).
  set (P := SkillScorer.normalized_set preferred_skills).
  assert (forall s,
    (exists r, r ∈ resume_skills /\ r <> ""
       /\ SkillSynonyms.normalize_skill r = SkillSynonyms.normalize_skill s)
    <-> SkillSynonyms.normalize_skill s ∈ S) as Hhas.
  { intros s. unfold S. rewrite elem_of_normalized_set.
    split; intros (r & ? & ? & ?); exists r; auto. }
  assert (forall (X : gset string) orig s,
    SkillSynonyms.normalize_skill s ∈ X -> s ∈ orig ->
    exists d, d ∈ SkillScorer.sorted (SkillScorer._get_display_skills X orig)
      /\ SkillSynonyms.normalize_skill d = SkillSynonyms.normalize_skill s)
    as Hshown.
  { intros X orig s HX Hs.
    destruct (display_loop_complete X orig ∅ _ HX) as (d & Hd & Hn).
    - apply not_elem_of_empty.
    - apply list_elem_of_fmap. eauto.
    - exists d. by rewrite elem_of_sorted. }
  assert (forall s l, s ∈ l -> s <> "" ->
    SkillSynonyms.normalize_skill s ∈ SkillScorer.normalized_set l) as Hnorm.
  { intros s l Hs Hne. apply elem_of_normalized_set. eauto. }
  split; [|split; [|split; [|split]]].
  - intros d (s & Hs & -> & HM)%elem_of_sorted%display_loop_elem.
    exists s. rewrite Hhas. repeat split; [done|].
    apply elem_of_union in HM as [HM|HM];
      by apply elem_of_intersection in HM as [? _].
  - intros d (s & Hs & -> & HM)%elem_of_sorted%display_loop_elem.
    exists s. rewrite Hhas. repeat split; [done|].
    apply elem_of_difference in HM as [HR HM]. intros HS. apply HM.
    by apply elem_of_intersection.
  - intros d (s & Hs & -> & HM)%elem_of_sorted%display_loop_elem.
    exists s. rewrite Hhas. repeat split; [done|].
    apply elem_of_difference in HM as [HR HM]. intros HS. apply HM.
    by apply elem_of_intersection.
  - intros s Hs Hne. rewrite Hhas. pose proof (Hnorm _ _ Hs Hne) as HR.
    split; intros HS; apply Hshown.
    + apply elem_of_union. left. by apply elem_of_intersection.
    + apply elem_of_app. by left.
    + apply elem_of_difference. split; [done|].
      by intros [? _]%elem_of_intersection.
    + done.
  - intros s Hs Hne. rewrite Hhas. pose proof (Hnorm _ _ Hs Hne) as HP.
    split; intros HS; apply Hshown.
    + apply elem_of_union. right. by apply elem_of_intersection.
    + apply elem_of_app. by right.
    + apply elem_of_difference. split; [done|].
      by intros [? _]%elem_of_intersection.
    + done.
Qed.

(** X11.  The skill overlap percentage lies between 0 and 100; it is 100
    exactly when the job lists a skill and every skill it lists has the
    normalized form of a skill of the resume, and 0 exactly when no skill
    of the job has. *)
Theorem skill_overlap_percentage_range
    (self : SkillScorer.t) (resume_skills job_skills : list string) :
  let p :=
    SkillScorer.get_skill_overlap_percentage self resume_skills job_skills in
  let has s :=
    exists r, r ∈ resume_skills
      /\ SkillSynonyms.normalize_skill r = SkillSynonyms.normalize_skill s in
  (0 <= p)%Q /\ (p <= 100)%Q
  /\ ((p == 100)%Q
      <-> job_skills <> [] /\ forall s, s ∈ job_skills -> has s)
  /\ ((p == 0)%Q <-> forall s, s ∈ job_skills -> ~ has s).
Proof.
  cbv zeta. unfold SkillScorer.get_skill_overlap_percentage.
  destruct job_skills as [|j js].
  { repeat split; try done.
    - by intros [? _].
    - by intros _ s ?%elem_of_nil. }
  set (job := j :: js).
  set (A := list_to_set (SkillSynonyms.normalize_skill <$> resume_skills)
            : gset string).
  set (B := list_to_set (SkillSynonyms.normalize_skill <$> job) : gset string).
  assert (forall s,
    (exists r, r ∈ resume_skills
       /\ SkillSynonyms.normalize_skill r = SkillSynonyms.normalize_skill s)
    <-> SkillSynonyms.normalize_skill s ∈ A) as Hhas.
  { intros s. unfold A. rewrite elem_of_list_to_set, list_elem_of_fmap.
    split; intros (r & ? & ?); exists r; auto. }
  assert (forall n, n ∈ B <-> exists s, s ∈ job
            /\ n = SkillSynonyms.normalize_skill s) as HB.
  { intros n. unfold B. rewrite elem_of_list_to_set, list_elem_of_fmap.
    split; intros (s & ? & ?); exists s; auto. }
  assert (size (A ∩ B) <= size B) as Hle.
  { apply subseteq_size. intros x. rewrite elem_of_intersection. tauto. }
  assert (0 < size B) as Hpos.
  { destruct (decide (size B = 0)) as [H0|]; [|lia].
    apply size_empty_iff in H0.
    assert (SkillSynonyms.normalize_skill j ∈ B) as Hj.
    { apply HB. exists j. split; [apply elem_of_cons; by left|done]. }
    rewrite (H0 _) in Hj. by apply elem_of_empty in Hj. }
  destruct (ratio_percent _ _ Hle Hpos) as (H1 & H2 & H3 & H4).
  cbv zeta in H1, H2, H3, H4.
  split; [exact H1|]. split; [exact H2|]. split.
  - rewrite H3. split.
    + intros Heq. split; [done|]. intros s Hs. apply Hhas.
      assert (A ∩ B = B) as Hsub.
      { apply set_subseteq_size_eq; [|lia].
        intros x. rewrite elem_of_intersection. tauto. }
      assert (SkillSynonyms.normalize_skill s ∈ B) as HsB
        by (apply HB; eauto).
      rewrite <- Hsub in HsB. apply elem_of_intersection in HsB. tauto.
    + intros [_ Hall]. f_equal. apply set_eq. intros x.
      rewrite elem_of_intersection. split; [tauto|].
      intros HxB. split; [|done]. apply HB in HxB as (s & Hs & ->).
      by apply Hhas, Hall.
  - rewrite H4, size_empty_iff. split.
    + intros He s Hs Hh%Hhas. apply (not_elem_of_empty (C:=gset string)
        (SkillSynonyms.normalize_skill s)).
      rewrite <- (He _). apply elem_of_intersection. split; [done|].
      apply HB. eauto.
    + intros Hall x. split; [|by intros ?%elem_of_empty].
      intros [HxA HxB]%elem_of_intersection.
      apply HB in HxB as (s & Hs & ->). destruct (Hall s Hs).
      by apply Hhas.
Qed.

(** ** Ranges and monotonicity of the experience scorer *)

Section ExperienceRange.
Variable now : PyDatetime.datetime.
Variable strptime : string -> string -> option PyDatetime.datetime.

Lemma ratio_range (y : Q) (m : Z) :
  (0 < m)%Z ->
  (0 <= ExperienceScorer.ratio y m)%Q /\ (ExperienceScorer.ratio y m <= 1)%Q.
Proof.
  intros Hm. assert (0 < inject_Z m)%Q as HmQ by (by rewrite <- (Zlt_Qlt 0)).
  unfold ExperienceScorer.ratio.
  destruct (PyNum.geb y (inject_Z m)) eqn:E1; [split; lra|].
  destruct (PyNum.leb y 0) eqn:E2; [split; lra|].
  apply PyNum_geb_lt in E1.
  assert (0 < y)%Q as Hy.
  { destruct (Qlt_le_dec 0 y) as [|Hle]; [done|].
    apply PyNum_leb_le in Hle. congruence. }
  split.
  - apply Qle_shift_div_l; [done|]. lra.
  - apply Qle_shift_div_r; [done|]. lra.
Qed.



Lemma experience_score_range_bounds ry (m : Z) entries :
  (0 <= ExperienceScorer.score now strptime ry m entries)%Q
  /\ (ExperienceScorer.score now strptime ry m entries <= 1)%Q.
Proof.
  destruct (decide (0 < m)%Z) as [Hm|Hm].
  - rewrite score_required by done.
    destruct ry as [y|]; [by apply ratio_range|].
    destruct entries as [[|e es]|]; try (split; lra).
    by apply ratio_range.
  - unfold ExperienceScorer.score.
    destruct (m <=? 0)%Z eqn:E; [split; lra|lia].
Qed.





End ExperienceRange.

(** ** Patterns that need a digit do not match a text without one *)

Section RegexDigits.
Import Regex RegexProps.
Context {R : Type}.




End RegexDigits.

Section RegexDigitsRun.
Import Regex RegexProps.








End RegexDigitsRun.




(** ** Ranges of the scores of a match *)

Section RoundFacts.

Lemma round_half_even_ge (q : Q) (z : Z) :
  (inject_Z z <= q)%Q -> (z <= PyNum.round_half_even q)%Z.
Proof.
  intros H. apply Qfloor_resp_le in H. rewrite Qfloor_Z in H.
  unfold PyNum.round_half_even.
  destruct (Qcompare _ _); [destruct (Z.even _)| |]; lia.
Qed.

Lemma round_half_even_le (q : Q) (z : Z) :
  (q <= inject_Z z)%Q -> (PyNum.round_half_even q <= z)%Z.
Proof.
  intros H. pose proof (Qfloor_le q) as Hf.
  assert (Qfloor q <= z)%Z as Hfz by (rewrite Zle_Qle; lra).
  assert (((1 # 2) <= q - inject_Z (Qfloor q))%Q -> (Qfloor q + 1 <= z)%Z)
    as Hup.
  { intros Hr. assert (Qfloor q < z)%Z; [|lia]. rewrite Zlt_Qlt. lra. }
  unfold PyNum.round_half_even.
  destruct (Qcompare_spec (q - inject_Z (Qfloor q)) (1 # 2)) as [He|Hl|Hg].
  - destruct (Z.even _); [done|]. apply Hup. rewrite He. apply Qle_refl.
  - done.
  - apply Hup. by apply Qlt_le_weak.
Qed.

Lemma round_range (q : Q) (ndigits : nat) (lo hi : Z) :
  (inject_Z lo <= q)%Q -> (q <= inject_Z hi)%Q ->
  (inject_Z lo <= PyNum.round q ndigits)%Q
  /\ (PyNum.round q ndigits <= inject_Z hi)%Q.
Proof.
  intros Hlo Hhi. unfold PyNum.round.
  set (p := (10 ^ Z.of_nat ndigits)%Z).
  assert (0 < p)%Z as Hp by (apply Z.pow_pos_nonneg; lia).
  assert (0 < inject_Z p)%Q as HpQ by (by rewrite <- (Zlt_Qlt 0)).
  split.
  - apply Qle_shift_div_l; [done|]. rewrite <- inject_Z_mult, <- Zle_Qle.
    apply round_half_even_ge. rewrite inject_Z_mult.
    apply Qmult_le_compat_r; [done|]. by apply Qlt_le_weak.
  - apply Qle_shift_div_r; [done|]. rewrite <- inject_Z_mult, <- Zle_Qle.
    apply round_half_even_le. rewrite inject_Z_mult.
    apply Qmult_le_compat_r; [done|]. by apply Qlt_le_weak.
Qed.

Lemma weighted_le (w x : Q) :
  (0 <= w)%Q -> (0 <= x)%Q -> (x <= 1)%Q -> (0 <= w * x)%Q /\ (w * x <= w)%Q.
Proof.
  intros Hw H0 H1. split; [by apply Qmult_le_0_compat|].
  rewrite <- (Qmult_1_r w) at 2. rewrite !(Qmult_comm w).
  by apply Qmult_le_compat_r.
Qed.

Lemma skill_score_range resume required preferred :
  (0 <= SkillMatchResult.score
          (SkillScorer.score SkillScorer.init resume required preferred))%Q
  /\ (SkillMatchResult.score
        (SkillScorer.score SkillScorer.init resume required preferred) <= 1)%Q.
Proof.
  rewrite score_unfold. split; [|apply Q.le_min_r].
  apply Q.min_glb; [|done]. unfold SkillScoreSpec.raw_score.
  set (total := SkillScoreSpec.points
                  (size (SkillScorer.normalized_set required))
                  (size (SkillScorer.normalized_set preferred))).
  destruct (PyNum.eqb total 0) eqn:E; [done|].
  pose proof (points_nonneg (size (SkillScorer.normalized_set required))
                (size (SkillScorer.normalized_set preferred))) as Hn.
  fold total in Hn.
  apply Qle_shift_div_l; [|rewrite Qmult_0_l; apply points_nonneg].
  destruct (Qlt_le_dec 0 total) as [|Hle]; [done|].
  assert (total == 0)%Q as H0 by (by apply Qle_antisym).
  apply Qeq_bool_iff in H0. unfold PyNum.eqb in E. congruence.
Qed.

End RoundFacts.

Section MatchRange.
Variable embedding : Type.
Variable encode : string -> embedding.
Variable cosine_similarity : embedding -> embedding -> Q.
Variable now : PyDatetime.datetime.
Variable strptime : string -> string -> option PyDatetime.datetime.

Lemma semantic_score_range resume_text job_text re je :
  (0 <= JobMatcher.semantic_score embedding encode cosine_similarity
          resume_text job_text re je)%Q
  /\ (JobMatcher.semantic_score embedding encode cosine_similarity
        resume_text job_text re je <= 1)%Q.
Proof.
  unfold JobMatcher.semantic_score.
  destruct (negb _ || negb _); [split; lra|].
  split; [apply Q.le_max_l|].
  apply Q.max_lub; [lra|apply Q.le_min_l].
Qed.

End MatchRange.

(** X15.  With weights that are not negative and sum to at most 1, as the
    default 0.4, 0.4 and 0.2 do, the score of a match lies between 0 and
    100 and its three component scores between 0 and 1, whatever the
    embedding service answers. *)
Theorem match_scores_in_range
    (embedding : Type) (encode : string -> embedding)
    (cosine_similarity : embedding -> embedding -> Q)
    (now : PyDatetime.datetime)
    (strptime : string -> string -> option PyDatetime.datetime)
    (self : JobMatcher.t) (resume : ResumeModel.Resume) (job : Job.t)
    (resume_embedding job_embedding : option embedding) :
  (0 <= JobMatcher.semantic_weight self)%Q ->
  (0 <= JobMatcher.skill_weight self)%Q ->
  (0 <= JobMatcher.experience_weight self)%Q ->
  (JobMatcher.semantic_weight self + JobMatcher.skill_weight self
   + JobMatcher.experience_weight self <= 1)%Q ->
  let result :=
    JobMatcher.match_ embedding encode cosine_similarity now strptime
                      self resume job resume_embedding job_embedding in
  ((0 <= MatchResult.score result)%Q
   /\ (MatchResult.score result <= 100)%Q)
  /\ ((0 <= MatchResult.semantic_score result)%Q
      /\ (MatchResult.semantic_score result <= 1)%Q)
  /\ ((0 <= MatchResult.skill_score result)%Q
      /\ (MatchResult.skill_score result <= 1)%Q)
  /\ ((0 <= MatchResult.experience_score result)%Q
      /\ (MatchResult.experience_score result <= 1)%Q).
Proof.
  intros Hs Hk He Hsum. cbv zeta. unfold JobMatcher.match_.
  destruct (negb (Clearance.meets_clearance_requirement _ _)).
  { cbn [MatchResult.score MatchResult.semantic_score MatchResult.skill_score
         MatchResult.experience_score]. repeat split; lra. }
  unfold MatchResult.set_explanation.
  cbn [MatchResult.score MatchResult.semantic_score MatchResult.skill_score
       MatchResult.experience_score].
  pose proof (semantic_score_range embedding encode cosine_similarity
    (ResumeModel.raw_text resume) (Job.description job)
    resume_embedding job_embedding) as [Hs0 Hs1].
  pose proof (skill_score_range (ResumeModel.skills resume)
    (Job.required_skills job) (Job.preferred_skills job)) as [Hk0 Hk1].
  destruct (experience_score_range_bounds now strptime
    (JobMatcher._estimate_experience_years resume)
    (Job.min_experience_years job)
    (match ResumeModel.experience resume with
     | [] => None
     | _ :: _ => Some (JobMatcher.entry_of <$> ResumeModel.experience resume)
     end)) as [He0 He1].
  set (s := JobMatcher.semantic_score _ _ _ _ _ _ _) in *.
  set (k := SkillMatchResult.score _) in *.
  set (e := ExperienceScorer.score _ _ _ _ _) in *.
  destruct (weighted_le _ _ Hs Hs0 Hs1) as [? ?].
  destruct (weighted_le _ _ Hk Hk0 Hk1) as [? ?].
  destruct (weighted_le _ _ He He0 He1) as [? ?].
  split; [|split; [|split]].
  - apply (round_range _ _ 0 100).
    + change (inject_Z 0) with 0%Q. lra.
    + change (inject_Z 100) with 100%Q. lra.
  - by apply (round_range _ _ 0 1).
  - by apply (round_range _ _ 0 1).
  - by apply (round_range _ _ 0 1).
Qed.

Lemma match_scores_in_range_witness :
  (0 <= MatchResult.score
          (Examples.match_ JobMatcher.init Examples.resume_history
                           Examples.job_ten_years None None))%Q
  /\ (MatchResult.score
        (Examples.match_ JobMatcher.init Examples.resume_history
                         Examples.job_ten_years None None) <= 100)%Q.
Proof.
  apply (match_scores_in_range unit Examples.encode Examples.cosine_similarity
           Examples.now PyDatetime.strptime JobMatcher.init
           Examples.resume_history Examples.job_ten_years None None);
    vm_compute; discriminate.
Defined.

(** ** Top matches and the order of a batch *)

Section SortFacts.

#[local] Instance by_score_desc_trans : Transitive JobMatcher.by_score_desc.
Proof. intros a b c Hab Hbc. unfold JobMatcher.by_score_desc in *. lra. Qed.

Lemma StronglySorted_sublist {A} (R : relation A) (l1 l2 : list A) :
  l1 `sublist_of` l2 -> StronglySorted R l2 -> StronglySorted R l1.
Proof.
  induction 1 as [|x l1 l2 Hl IH|x l1 l2 Hl IH]; intros Hs.
  - constructor.
  - apply StronglySorted_inv in Hs as [Hs Hx]. constructor; [by apply IH|].
    apply Forall_forall. intros y Hy. rewrite Forall_forall in Hx.
    apply Hx. by eapply elem_of_sublist.
  - apply StronglySorted_inv in Hs as [Hs _]. by apply IH.
Qed.

Lemma Sorted_desc_strongly (l : list MatchResult.t) :
  Sorted JobMatcher.by_score_desc l ->
  StronglySorted JobMatcher.by_score_desc l.
Proof. apply (Sorted_StronglySorted _). Qed.

Lemma Sorted_sublist_desc (l1 l2 : list MatchResult.t) :
  l1 `sublist_of` l2 -> Sorted JobMatcher.by_score_desc l2 ->
  Sorted JobMatcher.by_score_desc l1.
Proof.
  intros Hl Hs. apply StronglySorted_Sorted.
  apply (StronglySorted_sublist _ _ _ Hl).
  by apply (Sorted_StronglySorted _).
Qed.

Lemma StronglySorted_app_rel {A} (R : relation A) (l1 l2 : list A) x y :
  StronglySorted R (l1 ++ l2) -> x ∈ l1 -> y ∈ l2 -> R x y.
Proof.
  induction l1 as [|a l1 IH]; [by intros _ ?%elem_of_nil|].
  cbn [app]. intros [Hs Ha]%StronglySorted_inv [->|Hx]%elem_of_cons Hy.
  - rewrite Forall_forall in Ha. apply Ha, elem_of_app. by right.
  - by apply IH.
Qed.

(** Inserting a result moves it past results of strictly higher score
    only, so the results of any one score keep their order. *)
Lemma insert_desc_filter_score (s : Q) r l :
  filter (fun x => PyNum.eqb (MatchResult.score x) s)
         (JobMatcher.insert_desc r l)
  = filter (fun x => PyNum.eqb (MatchResult.score x) s) (r :: l).
Proof.
  induction l as [|r' l IH]; cbn [JobMatcher.insert_desc]; [done|].
  destruct (PyNum.geb _ _) eqn:E; [done|].
  apply PyNum_geb_lt in E.
  rewrite (filter_cons _ r'), IH, !(filter_cons _ r), (filter_cons _ r').
  destruct (decide (PyNum.eqb (MatchResult.score r) s)) as [Hr|Hr]; [|done].
  destruct (decide (PyNum.eqb (MatchResult.score r') s)) as [Hr'|Hr']; [|done].
  exfalso. unfold PyNum.eqb in Hr, Hr'.
  apply Is_true_true, Qeq_bool_iff in Hr, Hr'. lra.
Qed.

Lemma sort_by_score_desc_filter_score (s : Q) l :
  filter (fun x => PyNum.eqb (MatchResult.score x) s)
         (JobMatcher.sort_by_score_desc l)
  = filter (fun x => PyNum.eqb (MatchResult.score x) s) l.
Proof.
  induction l as [|r l IH]; [done|]. cbn [JobMatcher.sort_by_score_desc foldr].
  rewrite insert_desc_filter_score, !(filter_cons _ r).
  fold (JobMatcher.sort_by_score_desc l). by rewrite IH.
Qed.

Lemma sort_by_score_desc_sorted_id l :
  Sorted JobMatcher.by_score_desc l -> JobMatcher.sort_by_score_desc l = l.
Proof.
  induction 1 as [|r l Hs IH Hhd]; [done|].
  cbn [JobMatcher.sort_by_score_desc foldr].
  fold (JobMatcher.sort_by_score_desc l). rewrite IH.
  destruct Hhd as [|r' l' Hr]; [done|]. cbn [JobMatcher.insert_desc].
  by rewrite (proj2 (PyNum_geb_le _ _) Hr).
Qed.

End SortFacts.

(** X16.  The top matches of a resume (for a count [top_k] that is not
    negative) are at most [top_k] results, each the match of one of the
    jobs, each with a score of at least [min_score] and, when clearance is
    required, none disqualified; they come sorted by score, highest first;
    no result that was left out although it passes the two tests has a
    higher score than one that was kept; and when [top_k] is at least the
    number of jobs, every match that passes the tests is returned. *)
Theorem get_top_matches_are_the_top
    (embedding : Type) (encode : string -> embedding)
    (cosine_similarity : embedding -> embedding -> Q)
    (now : PyDatetime.datetime)
    (strptime : string -> string -> option PyDatetime.datetime)
    (self : JobMatcher.t) (resume : ResumeModel.Resume) (jobs : list Job.t)
    (top_k : nat) (min_score : Q) (require_clearance : bool) :
  let top :=
    JobMatcher.get_top_matches embedding encode cosine_similarity now strptime
      self resume jobs top_k min_score require_clearance in
  let match_ job :=
    JobMatcher.match_ embedding encode cosine_similarity now strptime
      self resume job None None in
  let passes r :=
    (min_score <= MatchResult.score r)%Q
    /\ (require_clearance = true -> MatchResult.disqualified r = false) in
  length top <= top_k
  /\ (forall r, r ∈ top -> passes r /\ exists job, job ∈ jobs /\ r = match_ job)
  /\ Sorted JobMatcher.by_score_desc top
  /\ (forall job r, job ∈ jobs -> passes (match_ job) -> match_ job ∉ top ->
        r ∈ top -> (MatchResult.score (match_ job) <= MatchResult.score r)%Q)
  /\ (length jobs <= top_k ->
      forall job, job ∈ jobs -> passes (match_ job) -> match_ job ∈ top).
Proof.
  cbv zeta. unfold JobMatcher.get_top_matches.
  set (P := fun result : MatchResult.t =>
    Is_true (negb (require_clearance && MatchResult.disqualified result)
             && PyNum.geb (MatchResult.score result) min_score)).
  set (m := fun job => JobMatcher.match_ embedding encode cosine_similarity
                         now strptime self resume job None None).
  assert (forall r, P r <-> (min_score <= MatchResult.score r)%Q
            /\ (require_clearance = true -> MatchResult.disqualified r = false))
    as HP.
  { intros r. unfold P. split.
    - intros [H1 H2]%andb_True. split.
      + by apply PyNum_geb_le, Is_true_true.
      + intros ->. by destruct (MatchResult.disqualified r).
    - intros [H1 H2]. apply andb_True. split.
      + destruct require_clearance; [|done]. by rewrite (H2 eq_refl).
      + by apply Is_true_true, PyNum_geb_le. }
  set (all := JobMatcher.match_batch embedding encode cosine_similarity now
                strptime self resume jobs None (Some true)).
  assert (all = JobMatcher.sort_by_score_desc (m <$> jobs)) as Hall.
  { unfold all, JobMatcher.match_batch. cbn [default from_option id].
    destruct jobs as [|j js]; [done|]. f_equal. apply list_fmap_ext.
    intros _ job _. apply match_batch_embedding. }
  assert (Sorted JobMatcher.by_score_desc (filter P all)) as Hsorted.
  { eapply Sorted_sublist_desc; [apply sublist_filter|].
    rewrite Hall. apply sort_by_score_desc_sorted. }
  assert (forall r, r ∈ filter P all <-> P r /\ exists job, job ∈ jobs /\ r = m job)
    as Hin.
  { intros r. rewrite list_elem_of_filter, Hall, sort_by_score_desc_perm.
    rewrite list_elem_of_fmap. split; intros [? (job & ? & ?)]; eauto. }
  split; [|split; [|split; [|split]]].
  - rewrite length_take. lia.
  - intros r Hr.
    pose proof (elem_of_sublist _ _ _ Hr (sublist_take _ _)) as Hr'.
    apply Hin in Hr' as [Hp Hj]. by rewrite <- HP.
  - eapply Sorted_sublist_desc; [apply sublist_take|done].
  - intros job r Hjob Hpass Hout Hr.
    assert (m job ∈ drop top_k (filter P all)) as Hdrop.
    { assert (m job ∈ filter P all) as Hm
        by (apply Hin; rewrite HP; eauto).
      rewrite <- (take_drop top_k (filter P all)) in Hm.
      apply elem_of_app in Hm as [Hm|Hm]; [by destruct Hout|done]. }
    apply Sorted_desc_strongly in Hsorted.
    rewrite <- (take_drop top_k (filter P all)) in Hsorted.
    apply (StronglySorted_app_rel _ _ _ _ _ Hsorted Hr Hdrop).
  - intros Hk job Hjob Hpass. rewrite take_ge.
    + apply Hin. rewrite HP. eauto.
    + etrans; [apply length_filter|]. rewrite Hall.
      rewrite sort_by_score_desc_perm, length_fmap. done.
Qed.

(** X17.  Sorting a batch is stable: the results of any one score come in
    the order of their jobs; and a batch that is already in order is
    returned as it is. *)
Theorem match_batch_sort_stable
    (embedding : Type) (encode : string -> embedding)
    (cosine_similarity : embedding -> embedding -> Q)
    (now : PyDatetime.datetime)
    (strptime : string -> string -> option PyDatetime.datetime)
    (self : JobMatcher.t) (resume : ResumeModel.Resume) (jobs : list Job.t)
    (resume_embedding : option embedding) :
  let batch :=
    JobMatcher.match_batch embedding encode cosine_similarity now strptime
                           self resume jobs resume_embedding in
  (forall s : Q,
      filter (fun r => PyNum.eqb (MatchResult.score r) s) (batch (Some true))
      = filter (fun r => PyNum.eqb (MatchResult.score r) s)
               (batch (Some false)))
  /\ (Sorted JobMatcher.by_score_desc (batch (Some false)) ->
      batch (Some true) = batch (Some false)).
Proof.
  cbv zeta. unfold JobMatcher.match_batch. cbn [default from_option id].
  destruct jobs as [|j js]; [done|]. split.
  - intros s. apply sort_by_score_desc_filter_score.
  - apply sort_by_score_desc_sorted_id.
Qed.

(** ** Upskilling recommendations *)

Section RecommendationFacts.
Import SkillSynonyms MatchResultModel.

#[local] Instance Recommendation_eq_dec : EqDecision Recommendation.
Proof. solve_decision. Defined.

(** The display name of a skill, in lower case, has the learning path of
    the skill. *)
Lemma upskilling_display_names :
  map_Forall (fun key shown =>
                UPSKILLING_RECOMMENDATIONS !! PyStr.lower shown
                = UPSKILLING_RECOMMENDATIONS !! key) display_names.
Proof. compute_done. Qed.

(** The skills with a learning path are normalized and have a display
    name. *)
Lemma upskilling_keys :
  map_Forall (fun key _ =>
                PyStr.strip key = key
                /\ default key (_REVERSE_LOOKUP !! key) = key
                /\ is_Some (display_names !! key))
             UPSKILLING_RECOMMENDATIONS.
Proof. compute_done. Qed.

Lemma recommendation_lookup skill :
  UPSKILLING_RECOMMENDATIONS !! PyStr.lower (get_canonical_skill skill)
  = UPSKILLING_RECOMMENDATIONS !! normalize_skill skill.
Proof.
  unfold get_canonical_skill.
  destruct (display_names !! normalize_skill skill) as [shown|] eqn:E;
    cbn [default from_option id].
  { exact (upskilling_display_names _ _ E). }
  assert (UPSKILLING_RECOMMENDATIONS !! normalize_skill skill = None) as ->.
  { destruct (UPSKILLING_RECOMMENDATIONS !! normalize_skill skill) as [r|] eqn:E2;
      [|done].
    destruct (upskilling_keys _ _ E2) as (_ & _ & [d Hd]). congruence. }
  destruct (UPSKILLING_RECOMMENDATIONS !! PyStr.lower skill) as [r|] eqn:E2;
    [|done].
  exfalso. destruct (upskilling_keys _ _ E2) as (Hs & Hr & [d Hd]).
  assert (normalize_skill skill = PyStr.lower skill) as Hn.
  { unfold normalize_skill. destruct skill as [|c skill].
    - vm_compute in E2. discriminate E2.
    - cbn [PyStr.truthy negb]. rewrite Hs. exact Hr. }
  congruence.
Qed.

Lemma recommendation_shown skill :
  JobMatcher.recommendation (get_canonical_skill skill)
  = match UPSKILLING_RECOMMENDATIONS !! normalize_skill skill with
    | Some rec =>
        "Learn " +:+ get_canonical_skill skill +:+ ": "
        +:+ rec_learning_path rec
    | None => "Develop " +:+ get_canonical_skill skill +:+ " skills"
    end.
Proof.
  unfold JobMatcher.recommendation.
  by rewrite recommendation_lookup, get_canonical_skill_idem.
Qed.

End RecommendationFacts.

(** X18.  A missing skill gets the learning path of the skill under every
    spelling of it: the recommendation for the display form of a skill is
    "Learn ..." with the learning path filed under the normalized skill and
    "Develop ... skills" when there is none.  A match recommends for the
    first five of its missing skills, the required ones first, and each of
    these is a display form. *)
Theorem recommendation_follows_synonyms
    (embedding : Type) (encode : string -> embedding)
    (cosine_similarity : embedding -> embedding -> Q)
    (now : PyDatetime.datetime)
    (strptime : string -> string -> option PyDatetime.datetime)
    (self : JobMatcher.t) (resume : ResumeModel.Resume) (job : Job.t)
    (resume_embedding job_embedding : option embedding) :
  let result :=
    JobMatcher.match_ embedding encode cosine_similarity now strptime
                      self resume job resume_embedding job_embedding in
  let missing :=
    (MatchResult.missing_required_skills result
     ++ MatchResult.missing_preferred_skills result)%list in
  (forall skill,
      JobMatcher.recommendation (SkillSynonyms.get_canonical_skill skill)
      = match MatchResultModel.UPSKILLING_RECOMMENDATIONS
                !! SkillSynonyms.normalize_skill skill with
        | Some rec =>
            "Learn " +:+ SkillSynonyms.get_canonical_skill skill +:+ ": "
            +:+ MatchResultModel.rec_learning_path rec
        | None =>
            "Develop " +:+ SkillSynonyms.get_canonical_skill skill
            +:+ " skills"
        end)
  /\ MatchResult.upskilling_recommendations result
     = JobMatcher.recommendation <$> take 5 missing
  /\ length (MatchResult.upskilling_recommendations result)
     = min 5 (length missing)
  /\ (forall shown, shown ∈ missing ->
        exists skill,
          skill ∈ (Job.required_skills job ++ Job.preferred_skills job)%list
          /\ shown = SkillSynonyms.get_canonical_skill skill).
Proof.
  cbv zeta. split; [exact recommendation_shown|].
  unfold JobMatcher.match_.
  destruct (negb (Clearance.meets_clearance_requirement _ _)).
  { cbn [MatchResult.upskilling_recommendations
         MatchResult.missing_required_skills
         MatchResult.missing_preferred_skills app].
    repeat split. by intros shown ?%elem_of_nil. }
  unfold MatchResult.set_explanation.
  cbn [MatchResult.upskilling_recommendations
       MatchResult.missing_required_skills
       MatchResult.missing_preferred_skills].
  unfold JobMatcher._get_upskilling_recommendations.
  split; [done|]. split; [by rewrite length_fmap, length_take|].
  intros shown Hin. unfold SkillScorer.score in Hin.
  cbn [SkillMatchResult.missing_required SkillMatchResult.missing_preferred]
    in Hin.
  apply elem_of_app in Hin as [Hin|Hin];
    apply elem_of_sorted, display_loop_elem in Hin as (skill & Hs & -> & _);
    exists skill; (split; [|done]); apply elem_of_app; auto.
Qed.

(** ** The semantic scorer on a batch *)

(** X19.  Every semantic score lies between 0 and 1, for a single job and
    in a batch, whatever the embedding service answers; a batch against an
    empty resume text has no score; and when [encode_batch] embeds each
    text as [encode] does, the batch scores of job texts that are not
    empty are the single scores, job by job. *)
Theorem semantic_score_batch_agrees
    (embedding : Type) (encode : string -> embedding)
    (encode_batch : list string -> list embedding)
    (cosine_similarity : embedding -> embedding -> Q)
    (resume_text : string) (job_texts : list string)
    (resume_embedding : option embedding) :
  let score := JobMatcher.semantic_score embedding encode cosine_similarity in
  let score_batch :=
    JobMatcher.score_batch embedding encode encode_batch cosine_similarity in
  (forall job_text job_embedding,
      (0 <= score resume_text job_text resume_embedding job_embedding)%Q
      /\ (score resume_text job_text resume_embedding job_embedding <= 1)%Q)
  /\ Forall (fun q => (0 <= q)%Q /\ (q <= 1)%Q)
            (score_batch resume_text job_texts resume_embedding)
  /\ score_batch "" job_texts resume_embedding = []
  /\ (encode_batch job_texts = encode <$> job_texts ->
      resume_text <> "" -> Forall (fun t => t <> "") job_texts ->
      score_batch resume_text job_texts resume_embedding
      = (fun t => score resume_text t resume_embedding None) <$> job_texts).
Proof.
  cbv zeta. split; [|split; [|split]].
  - intros. apply semantic_score_range.
  - unfold JobMatcher.score_batch. destruct (negb _ || _); [constructor|].
    apply Forall_fmap, Forall_forall. intros e _. cbn. split.
    + apply Q.le_max_l.
    + apply Q.max_lub; [lra|apply Q.le_min_l].
  - done.
  - intros Hb Hr Hj. unfold JobMatcher.score_batch.
    destruct resume_text as [|c resume_text]; [done|].
    cbn [PyStr.truthy negb orb]. destruct job_texts as [|t ts]; [done|].
    rewrite Hb, <- list_fmap_compose. apply Forall_fmap_ext_1.
    eapply Forall_impl; [exact Hj|]. intros t' Ht'. cbn.
    unfold JobMatcher.semantic_score. by destruct t'.
Qed.

(** ** Comparing the results of matches *)

Section CompareFacts.
Variable embedding : Type.
Variable encode : string -> embedding.
Variable cosine_similarity : embedding -> embedding -> Q.
Variable now : PyDatetime.datetime.
Variable strptime : string -> string -> option PyDatetime.datetime.

(** The score of a match is a whole number of tenths. *)
Lemma match_score_tenths self resume job re je :
  exists z : Z,
    (MatchResult.score
       (JobMatcher.match_ embedding encode cosine_similarity now strptime
                          self resume job re je)
     == inject_Z z / 10)%Q.
Proof.
  unfold JobMatcher.match_.
  destruct (negb (Clearance.meets_clearance_requirement _ _)).
  - by exists 0%Z.
  - unfold MatchResult.set_explanation. cbn [MatchResult.score].
    unfold PyNum.round. by eexists.
Qed.

Lemma tenths_close (za zb : Z) :
  (Qabs (inject_Z za / 10 - inject_Z zb / 10) < 1 # 100)%Q <-> za = zb.
Proof.
  rewrite Qabs_Qlt_condition.
  unfold Qlt, Qdiv, Qminus.
  cbn [Qnum Qden Qplus Qmult Qinv inject_Z Qopp Pos.mul Z.opp]. lia.
Qed.

End CompareFacts.

(** X20.  On the results of matches, whose scores are whole tenths, the
    equality with tolerance is the equality of the scores, and exactly one
    of [a < b], [a == b] and [b < a] holds: a result that compares lower
    than another is never equal to it. *)
Theorem match_results_compare_by_score
    (embedding : Type) (encode : string -> embedding)
    (cosine_similarity : embedding -> embedding -> Q)
    (now : PyDatetime.datetime)
    (strptime : string -> string -> option PyDatetime.datetime)
    (self self' : JobMatcher.t) (resume resume' : ResumeModel.Resume)
    (job job' : Job.t) (e1 e2 e1' e2' : option embedding) :
  let a :=
    JobMatcher.match_ embedding encode cosine_similarity now strptime
                      self resume job e1 e2 in
  let b :=
    JobMatcher.match_ embedding encode cosine_similarity now strptime
                      self' resume' job' e1' e2' in
  (MatchResult.eq a b = true
   <-> (MatchResult.score a == MatchResult.score b)%Q)
  /\ (MatchResult.lt a b = true -> MatchResult.eq a b = false)
  /\ (MatchResult.lt a b = true /\ MatchResult.lt b a = false
      \/ MatchResult.eq a b = true /\ MatchResult.lt a b = false
         /\ MatchResult.lt b a = false
      \/ MatchResult.lt b a = true /\ MatchResult.lt a b = false).
Proof.
  cbv zeta.
  destruct (match_score_tenths embedding encode cosine_similarity now strptime
              self resume job e1 e2) as [za Ha].
  destruct (match_score_tenths embedding encode cosine_similarity now strptime
              self' resume' job' e1' e2') as [zb Hb].
  set (a := JobMatcher.match_ _ _ _ _ _ self _ _ _ _) in *.
  set (b := JobMatcher.match_ _ _ _ _ _ self' _ _ _ _) in *.
  assert (MatchResult.eq a b = true
          <-> (MatchResult.score a == MatchResult.score b)%Q) as Heq.
  { unfold MatchResult.eq. rewrite PyNum_ltb_lt, Ha, Hb, tenths_close.
    split; [by intros ->|]. intros H.
    assert (inject_Z za == inject_Z zb)%Q as H'.
    { apply (Qmult_inj_r _ _ (/ 10)); [done|exact H]. }
    unfold Qeq in H'. cbn in H'. lia. }
  assert (forall x y : MatchResult.t,
    MatchResult.lt x y = true
    <-> (MatchResult.score x < MatchResult.score y)%Q) as Hlt
    by (intros; apply PyNum_ltb_lt).
  assert (forall x y : MatchResult.t,
    MatchResult.lt x y = false
    <-> (MatchResult.score y <= MatchResult.score x)%Q) as Hnlt.
  { intros x y. rewrite <- not_true_iff_false, Hlt. split.
    - apply Qnot_lt_le.
    - intros ? ?. by eapply Qlt_not_le. }
  split; [exact Heq|]. split.
  - intros H%Hlt. apply not_true_iff_false. rewrite Heq. lra.
  - rewrite !Hlt, !Hnlt, Heq.
    destruct (Q_dec (MatchResult.score a) (MatchResult.score b))
      as [[H|H]|H].
    + left. lra.
    + right. right. lra.
    + right. left. rewrite H. split; [done|]. split; apply Qle_refl.
Qed.

(** X25.  The constructor accepts weights whose sum is within 0.01 of 1,
    so with weights that are not negative the score of a match lies between
    0 and 101; and 100 can be passed: with the accepted weights 0.405, 0.4
    and 0.2 a resume that meets a job in full scores 100.5. *)
Theorem match_score_with_accepted_weights :
  (forall (embedding : Type) (encode : string -> embedding)
          (cosine_similarity : embedding -> embedding -> Q)
          (now : PyDatetime.datetime)
          (strptime : string -> string -> option PyDatetime.datetime)
          (semantic_weight skill_weight experience_weight : Q)
          (self : JobMatcher.t) (resume : ResumeModel.Resume) (job : Job.t)
          (resume_embedding job_embedding : option embedding),
      JobMatcher.make semantic_weight skill_weight experience_weight
      = Some self ->
      (0 <= semantic_weight)%Q -> (0 <= skill_weight)%Q ->
      (0 <= experience_weight)%Q ->
      let result :=
        JobMatcher.match_ embedding encode cosine_similarity now strptime
                          self resume job resume_embedding job_embedding in
      (0 <= MatchResult.score result)%Q
      /\ (MatchResult.score result <= 101)%Q)
  /\ (exists self,
         JobMatcher.make (405 # 1000) (4 # 10) (2 # 10) = Some self
         /\ (MatchResult.score
               (JobMatcher.match_ unit Examples.encode Examples.cosine_alike
                  Examples.now PyDatetime.strptime self
                  Examples.resume_history Examples.job_python None None)
             == 1005 # 10)%Q).
Proof.
  split.
  - intros embedding encode cosine_similarity now strptime sw kw ew self
      resume job re je Hmake Hs Hk He. cbv zeta.
    unfold JobMatcher.make in Hmake.
    destruct (PyNum.ltb (Qabs (sw + kw + ew - 1)) (1 # 100)) eqn:Hsum;
      cbn [negb] in Hmake; [|done].
    injection Hmake as <-.
    apply PyNum_ltb_lt, Qabs_Qlt_condition in Hsum as [_ Hsum].
    unfold JobMatcher.match_.
    destruct (negb (Clearance.meets_clearance_requirement _ _)).
    { cbn [MatchResult.score]. split; lra. }
    unfold MatchResult.set_explanation.
    cbn [MatchResult.score JobMatcher.semantic_weight JobMatcher.skill_weight
         JobMatcher.experience_weight].
    pose proof (semantic_score_range embedding encode cosine_similarity
      (ResumeModel.raw_text resume) (Job.description job) re je) as [Hs0 Hs1].
    pose proof (skill_score_range (ResumeModel.skills resume)
      (Job.required_skills job) (Job.preferred_skills job)) as [Hk0 Hk1].
    destruct (experience_score_range_bounds now strptime
      (JobMatcher._estimate_experience_years resume)
      (Job.min_experience_years job)
      (match ResumeModel.experience resume with
       | [] => None
       | _ :: _ => Some (JobMatcher.entry_of <$> ResumeModel.experience resume)
       end)) as [He0 He1].
    set (s := JobMatcher.semantic_score _ _ _ _ _ _ _) in *.
    set (k := SkillMatchResult.score _) in *.
    set (e := ExperienceScorer.score _ _ _ _ _) in *.
    destruct (weighted_le _ _ Hs Hs0 Hs1) as [? ?].
    destruct (weighted_le _ _ Hk Hk0 Hk1) as [? ?].
    destruct (weighted_le _ _ He He0 He1) as [? ?].
    apply (round_range _ _ 0 101).
    + change (inject_Z 0) with 0%Q. lra.
    + change (inject_Z 101) with 101%Q. lra.
  - eexists. split; [reflexivity|]. by vm_compute.
Qed.

(** ** The job model *)

Section JobFacts.
Import Job.

Lemma fromkeys_elem (l : list string) : forall (seen : gset string) x,
  x ∈ fromkeys seen l <-> x ∈ l /\ x ∉ seen.
Proof.
  induction l as [|y l IH]; intros seen x; cbn [fromkeys].
  - split; [by intros ?%elem_of_nil|by intros [?%elem_of_nil _]].
  - destruct (decide (y ∈ seen)) as [Hy|Hy].
    + rewrite bool_decide_eq_true_2 by done. rewrite IH, elem_of_cons.
      split; [tauto|]. intros [[->|?] ?]; [done|tauto].
    + rewrite bool_decide_eq_false_2 by done.
      rewrite !elem_of_cons, IH, elem_of_union, elem_of_singleton.
      destruct (decide (x = y)) as [->|]; tauto.
Qed.

Lemma fromkeys_NoDup (l : list string) : forall seen : gset string,
  NoDup (fromkeys seen l).
Proof.
  induction l as [|y l IH]; intros seen; cbn [fromkeys]; [constructor|].
  destruct (bool_decide (y ∈ seen)); [apply IH|].
  constructor; [|apply IH].
  rewrite fromkeys_elem, elem_of_union, elem_of_singleton. tauto.
Qed.

Lemma fromkeys_sublist (l : list string) : forall seen : gset string,
  fromkeys seen l `sublist_of` l.
Proof.
  induction l as [|y l IH]; intros seen; cbn [fromkeys]; [done|].
  destruct (bool_decide (y ∈ seen)).
  - by apply sublist_cons.
  - by apply sublist_skip.
Qed.

Lemma fromkeys_NoDup_id (l : list string) : forall seen : gset string,
  NoDup l -> (forall x, x ∈ l -> x ∉ seen) -> fromkeys seen l = l.
Proof.
  induction l as [|y l IH]; intros seen Hnd Hs; cbn [fromkeys]; [done|].
  apply NoDup_cons in Hnd as [Hy Hnd].
  rewrite bool_decide_eq_false_2 by (apply Hs, elem_of_cons; by left).
  f_equal. apply IH; [done|]. intros x Hx.
  rewrite elem_of_union, elem_of_singleton. intros [->|Hin]; [done|].
  apply (Hs x); [apply elem_of_cons; by right|done].
Qed.

(** The keys of [dict.fromkeys(a + b)] are those of [a], then the new
    ones of [b]. *)
Lemma fromkeys_app (a b : list string) : forall seen : gset string,
  fromkeys seen (a ++ b)
  = (fromkeys seen a ++ fromkeys (list_to_set a ∪ seen) b)%list.
Proof.
  induction a as [|y a IH]; intros seen; cbn [app fromkeys].
  - f_equal. apply set_eq. intros x.
    rewrite elem_of_union, list_to_set_nil, elem_of_empty. tauto.
  - assert (forall s : gset string, y ∈ s ->
      list_to_set (y :: a) ∪ s = list_to_set a ∪ s) as Hin.
    { intros s Hy. apply set_eq. intros x.
      rewrite list_to_set_cons, !elem_of_union, elem_of_singleton.
      split; [intros [[->|?]|?]; tauto|tauto]. }
    assert (forall s : gset string,
      list_to_set (y :: a) ∪ s = list_to_set a ∪ ({[y]} ∪ s)) as Hout.
    { intros s. apply set_eq. intros x.
      rewrite list_to_set_cons, !elem_of_union, elem_of_singleton. tauto. }
    destruct (decide (y ∈ seen)) as [Hy|Hy].
    + rewrite bool_decide_eq_true_2 by done. by rewrite IH, Hin.
    + rewrite bool_decide_eq_false_2 by done. cbn [app].
      by rewrite IH, Hout.
Qed.

End JobFacts.

(** X21.  The skills of a job, required and preferred together, are listed
    once each, in the order of their first occurrence with the required
    ones first: the list has no repeats and the same members as the two
    lists, it keeps their order, it starts with the required skills (less
    their repeats), and it is the two lists put together when these have
    no repeats. *)
Theorem get_all_skills_first_occurrences (job : Job.t) :
  let all :=
    (Job.required_skills job ++ Job.preferred_skills job)%list in
  NoDup (Job.get_all_skills job)
  /\ (forall skill, skill ∈ Job.get_all_skills job <-> skill ∈ all)
  /\ Job.get_all_skills job `sublist_of` all
  /\ Job.get_all_skills (Job.make "" "" "" "" Clearance.NONE
                           (Job.required_skills job) [] 0)
     `prefix_of` Job.get_all_skills job
  /\ (NoDup all -> Job.get_all_skills job = all).
Proof.
  cbv zeta. unfold Job.get_all_skills. split; [|split; [|split; [|split]]].
  - apply fromkeys_NoDup.
  - intros skill. rewrite fromkeys_elem. split; [tauto|].
    intros H. split; [done|]. apply not_elem_of_empty.
  - apply fromkeys_sublist.
  - cbn [Job.make Job.required_skills Job.preferred_skills].
    rewrite app_nil_r, fromkeys_app. by eexists.
  - intros Hnd. apply fromkeys_NoDup_id; [done|].
    intros x _. apply not_elem_of_empty.
Qed.

(** X22.  A job written to a dict and read back is the same job, whatever
    identifier would be drawn for a dict without one; so two jobs with the
    same dict are the same job.  Reading a dict fails exactly on a
    clearance name that, in upper case, is not the name of a level. *)
Theorem job_dict_round_trip :
  (forall (fresh_id : string) (job : Job.t),
      Job.from_dict fresh_id (Job.to_dict job) = Some job)
  /\ (forall job job' : Job.t, Job.to_dict job = Job.to_dict job' -> job = job')
  /\ (forall (fresh_id : string) (data : Job.dict),
         Job.from_dict fresh_id data = None
         <-> exists s, Job.d_clearance_level data = Some (Job.ByName s)
               /\ Clearance.of_name (PyStr.upper s) = None).
Proof.
  assert (forall (fresh_id : string) (job : Job.t),
    Job.from_dict fresh_id (Job.to_dict job) = Some job) as Hrt.
  { intros fresh_id [? ? ? ? level ? ? ? ? ? ? ? ? ?].
    unfold Job.from_dict, Job.to_dict.
    cbn [Job.d_clearance_level default from_option id Job.clearance_level].
    by destruct level. }
  split; [exact Hrt|]. split.
  - intros job job' H. pose proof (Hrt "" job) as H1.
    rewrite H, Hrt in H1. by injection H1.
  - intros fresh_id data. unfold Job.from_dict.
    destruct (Job.d_clearance_level data) as [[s|level]|];
      cbn [default from_option id].
    + destruct (Clearance.of_name (PyStr.upper s)) eqn:E; cbn.
      * split; [done|]. intros (s' & [= <-] & H). congruence.
      * split; [|done]. intros _. by exists s.
    + cbn. split; [done|]. by intros (s & [=] & _).
    + cbn. split; [done|]. by intros (s & [=] & _).
Qed.

(** ** Parsing a file *)

Section ParseContentFacts.
Import ResumeModel.
Variable section_extract :
  string -> ResumeParser.outcome (gmap string ParsedSection).
Variable contact_extract :
  string -> option string -> ResumeParser.outcome ContactInfo.
Variable skill_extract :
  string -> option string -> ResumeParser.outcome (list string).
Variable experience_extract :
  string -> option string -> ResumeParser.outcome (list WorkExperience).
Variable education_extract :
  string -> option string -> ResumeParser.outcome (list Education).


End ParseContentFacts.

